(** * Window management core of the Podplay Sanctuary frontend

    A shallow embedding of [src/components/ui/window-manager.tsx] and
    [src/components/ui/resizable-window.tsx].

    Conventions of the embedding.
    - A JavaScript [number] holding a pixel coordinate or a length is a
      rational ([Q]): the tile arrangement divides the viewport by the
      number of columns, so integers do not suffice.  Rounding of IEEE
      doubles is not modelled.  Geometry is compared with [==] ([Qeq]).
    - [zIndex], counters and list indices are integers ([Z] / [nat]).
    - A React callback made by [useCallback] reads the values of the render
      in which it was created; an updater passed to [setWindows] or
      [setNextZIndex] ([prev => ...]) receives the pending state.  Every
      operation below therefore takes the render snapshot [r] it closes
      over (when it reads one) and the pending state [s] it updates.
    - Renderable things ([component], [props], [icon]) are opaque: a type
      variable [Node]. *)

From Stdlib Require Import List ZArith QArith Qminmax Lia Lqa String Ascii Bool.
From Stdlib Require Import DecimalString.
Import ListNotations.

Set Implicit Arguments.

Open Scope Z_scope.

(** ** Small JavaScript helpers *)

(** [Array.prototype.map] with the index argument. *)
Fixpoint mapi_from {A B : Type} (k : nat) (f : A -> nat -> B) (l : list A) : list B :=
  match l with
  | [] => []
  | a :: l' => f a k :: mapi_from (S k) f l'
  end.

Definition mapi {A B : Type} (f : A -> nat -> B) (l : list A) : list B :=
  mapi_from 0 f l.

(** [Array.prototype.findIndex]: the first index whose element satisfies
    the predicate, [-1] when there is none. *)
Fixpoint findIndex_from {A : Type} (k : Z) (p : A -> bool) (l : list A) : Z :=
  match l with
  | [] => -1
  | a :: l' => if p a then k else findIndex_from (k + 1) p l'
  end.

Definition findIndex {A : Type} (p : A -> bool) (l : list A) : Z :=
  findIndex_from 0 p l.

(** [Array.prototype.some]. *)
Definition some {A : Type} (p : A -> bool) (l : list A) : bool := existsb p l.

(** [Math.ceil(Math.sqrt(n))] for a list length [n]. *)
Definition Math_ceil_sqrt (n : Z) : Z :=
  let r := Z.sqrt n in if r * r =? n then r else r + 1.

(** [Math.ceil(n / c)] for integers [n] and [c].  JavaScript gives [NaN] for
    [0 / 0]; here the quotient by zero is [0].  The only caller divides by
    zero when there is no visible window, and then it does not use the
    result. *)
Definition Math_ceil_div (n c : Z) : Z := - ((- n) / c).

(** [Math.max(lo, Math.min(hi, v))], the clamp idiom of the resize code. *)
Definition clamp (lo hi v : Q) : Q := Qmax lo (Qmin hi v).

(** [String.prototype.includes]. *)
Fixpoint includes_at (sub s : string) : bool :=
  match sub, s with
  | EmptyString, _ => true
  | String _ _, EmptyString => false
  | String a sub', String b s' => Ascii.eqb a b && includes_at sub' s'
  end.

Fixpoint includes (s sub : string) : bool :=
  includes_at sub s ||
  match s with
  | EmptyString => false
  | String _ s' => includes s' sub
  end.

(** The decimal rendering of a positive index inside a template literal. *)
Definition Number_toString (n : nat) : string :=
  NilZero.string_of_uint (Nat.to_uint n).

(** ** Geometry *)

Record Point := { x : Q; y : Q }.
Record Size := { width : Q; height : Q }.

Definition Point_eq (p q : Point) : Prop := x p == x q /\ y p == y q.
Definition Size_eq (a b : Size) : Prop :=
  width a == width b /\ height a == height b.

Inductive WindowType := terminal | browser | editor | monitor | custom.

Inductive Arrangement := cascade | tile | stack.

(** The browser viewport, [window.innerWidth] and [window.innerHeight]. *)
Record Viewport := { innerWidth : Q; innerHeight : Q }.

(** ** The leaf window, [resizable-window.tsx] *)

Module ResizableWindow.

Local Open Scope Q_scope.

(** The two coordinates of a [MouseEvent] that the handlers read. *)
Record MouseEvent := { clientX : Q; clientY : Q }.

(** [interface WindowProps], without [title], [children], [className] and
    the three flags [closable], [minimizable], [maximizable], which only
    select the header buttons that are drawn.  The callbacks are the
    constructors of [Callback] below. *)
Record WindowProps := {
  id : string;
  initialPosition : Point;
  initialSize : Size;
  minSize : Size;
  maxSize : Size;
  resizable : bool;
  draggable : bool;
  isMinimized : bool;
  isMaximized : bool;
  zIndex : Z
}.

(** The object kept in the [resizeStart] cell. *)
Record ResizeStart := {
  start_x : Q;
  start_y : Q;
  start_width : Q;
  start_height : Q
}.

(** The [useState] cells of one mounted window. *)
Record State := {
  position : Point;
  size : Size;
  isDragging : bool;
  isResizing : bool;
  resizeDirection : string;
  dragStart : Point;
  resizeStart : ResizeStart
}.

(** The first render of a window: every [useState] takes its initial
    value.  Later renders ignore the argument of [useState]. *)
Definition mount (p : WindowProps) : State :=
  {| position := initialPosition p;
     size := initialSize p;
     isDragging := false;
     isResizing := false;
     resizeDirection := "";
     dragStart := {| x := 0; y := 0 |};
     resizeStart := {| start_x := 0; start_y := 0; start_width := 0; start_height := 0 |} |}.

(** A call of one of the optional callback props. *)
Inductive Callback :=
| onClose (i : string)
| onMinimize (i : string)
| onMaximize (i : string)
| onResize (i : string) (sz : Size)
| onMove (i : string) (pos : Point)
| onFocus (i : string).

Definition handleFocus (p : WindowProps) : list Callback := [onFocus (id p)].

Definition handleMouseDown (p : WindowProps) (st : State) (e : MouseEvent)
    : State * list Callback :=
  if negb (draggable p) || isMaximized p then (st, [])
  else
    ({| position := position st;
        size := size st;
        isDragging := true;
        isResizing := isResizing st;
        resizeDirection := resizeDirection st;
        dragStart := {| x := clientX e - x (position st);
                        y := clientY e - y (position st) |};
        resizeStart := resizeStart st |},
     handleFocus p).

(** A pointer-down on the header runs [handleMouseDown] and then, since the
    event bubbles to the window element, [handleFocus] once more. *)
Definition header_onMouseDown (p : WindowProps) (st : State) (e : MouseEvent)
    : State * list Callback :=
  let '(st', out) := handleMouseDown p st e in (st', out ++ handleFocus p).

Definition handleResizeStart (p : WindowProps) (st : State) (e : MouseEvent)
    (direction : string) : State * list Callback :=
  if negb (resizable p) || isMaximized p then (st, [])
  else
    ({| position := position st;
        size := size st;
        isDragging := isDragging st;
        isResizing := true;
        resizeDirection := direction;
        dragStart := dragStart st;
        resizeStart := {| start_x := clientX e;
                          start_y := clientY e;
                          start_width := width (size st);
                          start_height := height (size st) |} |},
     handleFocus p).

Definition setPosition (st : State) (pos : Point) : State :=
  {| position := pos; size := size st; isDragging := isDragging st;
     isResizing := isResizing st; resizeDirection := resizeDirection st;
     dragStart := dragStart st; resizeStart := resizeStart st |}.

Definition setSize (st : State) (sz : Size) : State :=
  {| position := position st; size := sz; isDragging := isDragging st;
     isResizing := isResizing st; resizeDirection := resizeDirection st;
     dragStart := dragStart st; resizeStart := resizeStart st |}.

(** The drag branch of [handleMouseMove]: the clamped position. *)
Definition dragPosition (vp : Viewport) (st : State) (e : MouseEvent) : Point :=
  {| x := Qmax 0 (Qmin (clientX e - x (dragStart st))
                       (innerWidth vp - width (size st)));
     y := Qmax 0 (Qmin (clientY e - y (dragStart st))
                       (innerHeight vp - height (size st))) |}.

(** The resize branch of [handleMouseMove]: the four [let] variables after
    the four [if] statements, which run in the order right, left, bottom,
    top. *)
Definition resizeGeometry (p : WindowProps) (st : State) (e : MouseEvent)
    : Size * Point :=
  let deltaX := clientX e - start_x (resizeStart st) in
  let deltaY := clientY e - start_y (resizeStart st) in
  let newWidth := start_width (resizeStart st) in
  let newHeight := start_height (resizeStart st) in
  let newX := x (position st) in
  let newY := y (position st) in
  let newWidth :=
    if includes (resizeDirection st) "right"
    then clamp (width (minSize p)) (width (maxSize p))
               (start_width (resizeStart st) + deltaX)
    else newWidth in
  let '(newWidth, newX) :=
    if includes (resizeDirection st) "left"
    then (clamp (width (minSize p)) (width (maxSize p))
                (start_width (resizeStart st) - deltaX),
          start_x (resizeStart st) + deltaX)
    else (newWidth, newX) in
  let newHeight :=
    if includes (resizeDirection st) "bottom"
    then clamp (height (minSize p)) (height (maxSize p))
               (start_height (resizeStart st) + deltaY)
    else newHeight in
  let '(newHeight, newY) :=
    if includes (resizeDirection st) "top"
    then (clamp (height (minSize p)) (height (maxSize p))
                (start_height (resizeStart st) - deltaY),
          start_y (resizeStart st) + deltaY)
    else (newHeight, newY) in
  ({| width := newWidth; height := newHeight |}, {| x := newX; y := newY |}).

(** [handleMouseMove].  Both branches read the cells of the render ([st]);
    the setters are called with values, so the last call wins. *)
Definition handleMouseMove (vp : Viewport) (p : WindowProps) (st : State)
    (e : MouseEvent) : State * list Callback :=
  let '(st1, out1) :=
    if isDragging st && negb (isMaximized p)
    then (setPosition st (dragPosition vp st e),
          [onMove (id p) (dragPosition vp st e)])
    else (st, []) in
  if isResizing st
  then
    let '(sz, pos) := resizeGeometry p st e in
    (setPosition (setSize st1 sz) pos,
     out1 ++ [onResize (id p) sz; onMove (id p) pos])
  else (st1, out1).

Definition handleMouseUp (st : State) : State :=
  {| position := position st; size := size st; isDragging := false;
     isResizing := false; resizeDirection := "";
     dragStart := dragStart st; resizeStart := resizeStart st |}.

Definition handleClose (p : WindowProps) : list Callback := [onClose (id p)].
Definition handleMinimize (p : WindowProps) : list Callback := [onMinimize (id p)].
Definition handleMaximize (p : WindowProps) : list Callback := [onMaximize (id p)].

(** The rectangle at which the window is drawn ([windowStyle]); a minimized
    window returns [null]. *)
Inductive Rendered :=
| Hidden
| FullViewport (z : Z)
| Rect (pos : Point) (sz : Size) (z : Z).

Definition windowStyle (p : WindowProps) (st : State) : Rendered :=
  if isMinimized p then Hidden
  else if isMaximized p then FullViewport (zIndex p + 1000)%Z
  else Rect (position st) (size st) (zIndex p).

(** The successive results of [handleMouseMove] over a sequence of pointer
    moves, each handled in the render that follows the previous one. *)
Fixpoint moves (vp : Viewport) (p : WindowProps) (st : State)
    (es : list MouseEvent) : list (State * list Callback) :=
  match es with
  | [] => []
  | e :: es' =>
      let r := handleMouseMove vp p st e in
      r :: moves vp p (fst r) es'
  end.

End ResizableWindow.

Section WindowManager.

(** Opaque renderable content. *)
Variable Node : Type.

(** [interface WindowState]. *)
Record WindowState := {
  id : string;
  title : string;
  component : Node;
  props : option Node;
  position : Point;
  size : Size;
  isMinimized : bool;
  isMaximized : bool;
  zIndex : Z;
  icon : option Node;
  type : WindowType
}.

(** [Partial<WindowState>]: every key may be absent.  A key that is present
    holds a value of its type: a key set to [undefined] explicitly is not
    represented. *)
Record PartialWindowState := {
  o_id : option string;
  o_title : option string;
  o_component : option Node;
  o_props : option Node;
  o_position : option Point;
  o_size : option Size;
  o_isMinimized : option bool;
  o_isMaximized : option bool;
  o_zIndex : option Z;
  o_icon : option Node;
  o_type : option WindowType
}.

(** [{}], the default value of [options]. *)
Definition no_options : PartialWindowState :=
  {| o_id := None; o_title := None; o_component := None; o_props := None;
     o_position := None; o_size := None; o_isMinimized := None;
     o_isMaximized := None; o_zIndex := None; o_icon := None;
     o_type := None |}.

(** [interface LayoutPreset]. *)
Record LayoutPreset := {
  name : string;
  preset_icon : option Node;
  preset_windows : list PartialWindowState
}.

(** The two [useState] cells of the manager that the operations touch. *)
Record ManagerState := {
  windows : list WindowState;
  nextZIndex : Z
}.

Definition initial_state : ManagerState := {| windows := []; nextZIndex := 1 |}.

(** [a || b] on an optional key: an absent key is [undefined]. *)
Definition or_default {A : Type} (o : option A) (d : A) : A :=
  match o with Some a => a | None => d end.

(** [title || fallback]: the empty string is falsy as well. *)
Definition or_default_string (o : option string) (d : string) : string :=
  match o with
  | Some EmptyString => d
  | Some s => s
  | None => d
  end.

(** [{ ...w, ...options }]: each key present in [options] replaces the
    value already in the object. *)
Definition spread (w : WindowState) (options : PartialWindowState) : WindowState :=
  {| id := or_default (o_id options) (id w);
     title := or_default (o_title options) (title w);
     component := or_default (o_component options) (component w);
     props := match o_props options with Some p => Some p | None => props w end;
     position := or_default (o_position options) (position w);
     size := or_default (o_size options) (size w);
     isMinimized := or_default (o_isMinimized options) (isMinimized w);
     isMaximized := or_default (o_isMaximized options) (isMaximized w);
     zIndex := or_default (o_zIndex options) (zIndex w);
     icon := match o_icon options with Some i => Some i | None => icon w end;
     type := or_default (o_type options) (type w) |}.

(** The object literal of [createWindow].  [gen] is the value of the
    template literal [`window-${Date.now()}-${Math.random()...}`]. *)
Definition newWindow (r : ManagerState) (gen : string) (title0 : string)
    (component0 : Node) (options : PartialWindowState) : WindowState :=
  let cascade := (inject_Z (Z.of_nat (List.length (windows r))) * 30)%Q in
  let defaultPosition := {| x := 100 + cascade; y := 100 + cascade |} in
  spread
    {| id := gen;
       title := title0;
       component := component0;
       position := or_default (o_position options) defaultPosition;
       size := or_default (o_size options) {| width := 600; height := 400 |};
       isMinimized := false;
       isMaximized := false;
       zIndex := nextZIndex r;
       type := or_default (o_type options) custom;
       icon := o_icon options;
       props := o_props options |}
    options.

(** [createWindow]: returns the generated id and the updated state. *)
Definition createWindow (r : ManagerState) (gen : string) (title0 : string)
    (component0 : Node) (options : PartialWindowState) (s : ManagerState)
    : string * ManagerState :=
  (gen,
   {| windows := windows s ++ [newWindow r gen title0 component0 options];
      nextZIndex := nextZIndex s + 1 |}).

Definition set_zIndex (w : WindowState) (z : Z) : WindowState :=
  {| id := id w; title := title w; component := component w; props := props w;
     position := position w; size := size w; isMinimized := isMinimized w;
     isMaximized := isMaximized w; zIndex := z; icon := icon w; type := type w |}.

Definition set_isMinimized (w : WindowState) (b : bool) : WindowState :=
  {| id := id w; title := title w; component := component w; props := props w;
     position := position w; size := size w; isMinimized := b;
     isMaximized := isMaximized w; zIndex := zIndex w; icon := icon w;
     type := type w |}.

Definition set_isMaximized (w : WindowState) (b : bool) : WindowState :=
  {| id := id w; title := title w; component := component w; props := props w;
     position := position w; size := size w; isMinimized := isMinimized w;
     isMaximized := b; zIndex := zIndex w; icon := icon w; type := type w |}.

Definition set_position (w : WindowState) (p : Point) : WindowState :=
  {| id := id w; title := title w; component := component w; props := props w;
     position := p; size := size w; isMinimized := isMinimized w;
     isMaximized := isMaximized w; zIndex := zIndex w; icon := icon w;
     type := type w |}.

Definition set_size (w : WindowState) (sz : Size) : WindowState :=
  {| id := id w; title := title w; component := component w; props := props w;
     position := position w; size := sz; isMinimized := isMinimized w;
     isMaximized := isMaximized w; zIndex := zIndex w; icon := icon w;
     type := type w |}.

(** [focusWindow]: the new [zIndex] is the counter of the render. *)
Definition focusWindow (r : ManagerState) (i : string) (s : ManagerState) : ManagerState :=
  {| windows :=
       map (fun w => set_zIndex w (if String.eqb (id w) i then nextZIndex r else zIndex w))
           (windows s);
     nextZIndex := nextZIndex s + 1 |}.

Definition closeWindow (i : string) (s : ManagerState) : ManagerState :=
  {| windows := filter (fun w => negb (String.eqb (id w) i)) (windows s);
     nextZIndex := nextZIndex s |}.

Definition minimizeWindow (i : string) (s : ManagerState) : ManagerState :=
  {| windows :=
       map (fun w => set_isMinimized w
              (if String.eqb (id w) i then negb (isMinimized w) else isMinimized w))
           (windows s);
     nextZIndex := nextZIndex s |}.

Definition maximizeWindow (i : string) (s : ManagerState) : ManagerState :=
  {| windows :=
       map (fun w => set_isMaximized w
              (if String.eqb (id w) i then negb (isMaximized w) else isMaximized w))
           (windows s);
     nextZIndex := nextZIndex s |}.

Definition updateWindowPosition (i : string) (p : Point) (s : ManagerState) : ManagerState :=
  {| windows :=
       map (fun w => set_position w (if String.eqb (id w) i then p else position w))
           (windows s);
     nextZIndex := nextZIndex s |}.

Definition updateWindowSize (i : string) (sz : Size) (s : ManagerState) : ManagerState :=
  {| windows :=
       map (fun w => set_size w (if String.eqb (id w) i then sz else size w))
           (windows s);
     nextZIndex := nextZIndex s |}.

(** *** applyLayoutPreset *)

(** The inline placeholder component that [applyLayoutPreset] builds from a
    preset entry. *)
Variable placeholder : PartialWindowState -> Node.

(** [setWindows([])]. *)
Definition applyLayoutPreset_clear (s : ManagerState) : ManagerState :=
  {| windows := []; nextZIndex := nextZIndex s |}.

(** [preset.windows.forEach((windowConfig, index) => createWindow(...))].
    Every iteration calls the same [createWindow], the one of render [r];
    [gen index] is the id generated in iteration [index]. *)
Fixpoint forEach_createWindow (r : ManagerState) (gen : nat -> string)
    (index : nat) (configs : list PartialWindowState) (s : ManagerState)
    : ManagerState :=
  match configs with
  | [] => s
  | windowConfig :: rest =>
      forEach_createWindow r gen (S index) rest
        (snd (createWindow r (gen index)
                (or_default_string (o_title windowConfig)
                   ("Window " ++ Number_toString (index + 1)))
                (placeholder windowConfig)
                windowConfig s))
  end.

(** The body of the [setTimeout] callback, run 100 ms after the click on
    the state [s] of that moment. *)
Definition applyLayoutPreset_timeout (r : ManagerState) (gen : nat -> string)
    (preset : LayoutPreset) (s : ManagerState) : ManagerState :=
  forEach_createWindow r gen 0 (preset_windows preset) s.

(** [applyLayoutPreset] when nothing else happens before the timer fires:
    the click is handled in the render of [s]. *)
Definition applyLayoutPreset (gen : nat -> string) (preset : LayoutPreset)
    (s : ManagerState) : ManagerState :=
  applyLayoutPreset_timeout s gen preset (applyLayoutPreset_clear s).

(** *** arrangeWindows *)

(** [{ ...window, position, size, isMaximized: false }]. *)
Definition arranged (w : WindowState) (p : Point) (sz : Size) : WindowState :=
  {| id := id w; title := title w; component := component w; props := props w;
     position := p; size := sz; isMinimized := isMinimized w;
     isMaximized := false; zIndex := zIndex w; icon := icon w; type := type w |}.

Definition Q_of_nat (n : nat) : Q := inject_Z (Z.of_nat n).

Definition visible (ws : list WindowState) : list WindowState :=
  filter (fun w => negb (isMinimized w)) ws.

(** The [tile] branch for one window.  [Z.rem] is JavaScript's [%] and
    [Z.div] is [Math.floor] of the quotient (for a positive divisor).
    [cols] and [rows] are zero only when the render has no visible window;
    JavaScript then computes [Infinity] and [NaN] where the quotients below
    are zero, and with [r = s] no window reaches the branch that reads
    them. *)
Definition tileWindow (vp : Viewport) (visibleWindows : list WindowState)
    (w : WindowState) : WindowState :=
  let containerWidth := (innerWidth vp - 100)%Q in
  let containerHeight := (innerHeight vp - 150)%Q in
  let cols := Math_ceil_sqrt (Z.of_nat (List.length visibleWindows)) in
  let rows := Math_ceil_div (Z.of_nat (List.length visibleWindows)) cols in
  let windowWidth := (containerWidth / inject_Z cols)%Q in
  let windowHeight := (containerHeight / inject_Z rows)%Q in
  if isMinimized w then w
  else
    let visibleIndex :=
      findIndex (fun w' => String.eqb (id w') (id w)) visibleWindows in
    let col := Z.rem visibleIndex cols in
    let row := visibleIndex / cols in
    arranged w
      {| x := 50 + inject_Z col * windowWidth;
         y := 50 + inject_Z row * windowHeight |}
      {| width := windowWidth - 10; height := windowHeight - 10 |}.

(** [arrangeWindows]: [visibleWindows] is computed from the render [r], the
    three updaters map over the pending list. *)
Definition arrangeWindows (r : ManagerState) (vp : Viewport)
    (arrangement : Arrangement) (s : ManagerState) : ManagerState :=
  let visibleWindows := visible (windows r) in
  match arrangement with
  | cascade =>
      {| windows :=
           mapi (fun w index =>
                   arranged w
                     {| x := 50 + Q_of_nat index * 30;
                        y := 50 + Q_of_nat index * 30 |}
                     {| width := 600; height := 400 |})
                (windows s);
         nextZIndex := nextZIndex s |}
  | tile =>
      {| windows := mapi (fun w _ => tileWindow vp visibleWindows w) (windows s);
         nextZIndex := nextZIndex s |}
  | stack =>
      {| windows :=
           mapi (fun w index =>
                   set_zIndex
                     (arranged w {| x := 100; y := 100 |}
                                 {| width := 800; height := 600 |})
                     (Z.of_nat index + 1))
                (windows s);
         nextZIndex := nextZIndex s |}
  end.

(** *** Rendering *)

(** The props that the manager passes to [ResizableWindow]; the others take
    their default values. *)
Definition windowProps (vp : Viewport) (w : WindowState)
    : ResizableWindow.WindowProps :=
  {| ResizableWindow.id := id w;
     ResizableWindow.initialPosition := position w;
     ResizableWindow.initialSize := size w;
     ResizableWindow.minSize := {| width := 300; height := 200 |};
     ResizableWindow.maxSize := {| width := innerWidth vp - 100;
                                   height := innerHeight vp - 100 |};
     ResizableWindow.resizable := true;
     ResizableWindow.draggable := true;
     ResizableWindow.isMinimized := false;
     ResizableWindow.isMaximized := isMaximized w;
     ResizableWindow.zIndex := zIndex w |}.

(** The mounted [ResizableWindow] instances, by React key. *)
Definition Mounted := list (string * ResizableWindow.State).

Fixpoint instance (key : string) (m : Mounted) : option ResizableWindow.State :=
  match m with
  | [] => None
  | (k, st) :: m' => if String.eqb k key then Some st else instance key m'
  end.

(** One render of the window list: a window whose key is already mounted
    keeps its cells, a new key is mounted, and the keys that are not
    rendered any more (closed or minimized windows) are unmounted. *)
Definition render (vp : Viewport) (ws : list WindowState) (m : Mounted) : Mounted :=
  map (fun w =>
         (id w,
          match instance (id w) m with
          | Some st => st
          | None => ResizableWindow.mount (windowProps vp w)
          end))
      (visible ws).

(** What one window shows after a render, if it is on the surface. *)
Definition rendered (vp : Viewport) (w : WindowState) (m : Mounted)
    : option ResizableWindow.Rendered :=
  match instance (id w) m with
  | Some st => Some (ResizableWindow.windowStyle (windowProps vp w) st)
  | None => None
  end.

(** The taskbar: one button per minimized window. *)
Definition taskbar (ws : list WindowState) : list string :=
  map id (filter isMinimized ws).

(** The manager's handler for each callback of a window. *)
Definition deliver (r : ManagerState) (c : ResizableWindow.Callback)
    (s : ManagerState) : ManagerState :=
  match c with
  | ResizableWindow.onClose i => closeWindow i s
  | ResizableWindow.onMinimize i => minimizeWindow i s
  | ResizableWindow.onMaximize i => maximizeWindow i s
  | ResizableWindow.onResize i sz => updateWindowSize i sz s
  | ResizableWindow.onMove i pos => updateWindowPosition i pos s
  | ResizableWindow.onFocus i => focusWindow r i s
  end.

(** The window that iteration [index] of the preset loop creates. *)
Definition preset_window (r : ManagerState) (gen : nat -> string)
    (windowConfig : PartialWindowState) (index : nat) : WindowState :=
  newWindow r (gen index)
    (or_default_string (o_title windowConfig)
       ("Window " ++ Number_toString (index + 1)))
    (placeholder windowConfig) windowConfig.

(** Options that copy the id and the stacking value of a window. *)
Definition copy_identity (w : WindowState) : PartialWindowState :=
  {| o_id := Some (id w); o_title := None; o_component := None;
     o_props := None; o_position := None; o_size := None;
     o_isMinimized := None; o_isMaximized := None;
     o_zIndex := Some (zIndex w); o_icon := None; o_type := None |}.

(** The ids and the [zIndex] values of the windows, in list order. *)
Definition stacking (s : ManagerState) : list (string * Z) :=
  map (fun w => (id w, zIndex w)) (windows s).

(** *** Histories of the manager *)

Definition ids (s : ManagerState) : list string := map id (windows s).

Definition has_id (i : string) (s : ManagerState) : bool :=
  some (fun w => String.eqb (id w) i) (windows s).

Definition last_id (ws : list WindowState) : option string :=
  match rev ws with
  | [] => None
  | w :: _ => Some (id w)
  end.

(** [raised s t]: the manager reaches [s] from the empty workspace by one
    operation per event, each run in the render of the state it updates;
    [t] is the window raised last: the one created or focused last, or,
    after a [stack] arrangement, the last window of the list.  A created
    window takes a generated id that no live window has, and its options
    set neither [id] nor [zIndex].  [raise_header] is the pointer-down on a
    header, which calls [focusWindow] twice in one event. *)
Inductive raised : ManagerState -> option string -> Prop :=
| raise_init : raised initial_state None
| raise_create s t gen title0 component0 options :
    raised s t ->
    ~ In gen (ids s) ->
    o_id options = None ->
    o_zIndex options = None ->
    raised (snd (createWindow s gen title0 component0 options s)) (Some gen)
| raise_focus s t i :
    raised s t ->
    raised (focusWindow s i s) (if has_id i s then Some i else t)
| raise_header s t i :
    raised s t ->
    raised (focusWindow s i (focusWindow s i s))
           (if has_id i s then Some i else t)
| raise_close s t i : raised s t -> raised (closeWindow i s) t
| raise_minimize s t i : raised s t -> raised (minimizeWindow i s) t
| raise_maximize s t i : raised s t -> raised (maximizeWindow i s) t
| raise_move s t i p : raised s t -> raised (updateWindowPosition i p s) t
| raise_resize s t i sz : raised s t -> raised (updateWindowSize i sz s) t
| raise_cascade s t vp : raised s t -> raised (arrangeWindows s vp cascade s) t
| raise_tile s t vp : raised s t -> raised (arrangeWindows s vp tile s) t
| raise_stack s t vp :
    raised s t ->
    raised (arrangeWindows s vp stack s) (last_id (windows s)).

(** The window with id [i], if it is live, is strictly above every other
    live window. *)
Definition on_top (i : string) (s : ManagerState) : Prop :=
  forall w w', In w (windows s) -> In w' (windows s) ->
    id w = i -> id w' <> i -> zIndex w' < zIndex w.

(** Two windows whose rectangles share interior points. *)
Definition overlap (a b : WindowState) : Prop :=
  (x (position a) < x (position b) + width (size b))%Q /\
  (x (position b) < x (position a) + width (size a))%Q /\
  (y (position a) < y (position b) + height (size b))%Q /\
  (y (position b) < y (position a) + height (size a))%Q.

End WindowManager.

(** ** Stacking order as a list of pairs

    The stacking invariants only read the ids and the [zIndex] values, so
    they are stated on [stacking]: what an operation does to that list,
    and what holds of it. *)

Definition raise_pairs (next : Z) (i : string) (l : list (string * Z))
    : list (string * Z) :=
  map (fun p => (fst p, if String.eqb (fst p) i then next else snd p)) l.

Definition close_pairs (i : string) (l : list (string * Z)) : list (string * Z) :=
  filter (fun p => negb (String.eqb (fst p) i)) l.

Definition stack_pairs (l : list (string * Z)) : list (string * Z) :=
  mapi (fun p k => (fst p, Z.of_nat k + 1)) l.

Definition last_fst (l : list (string * Z)) : option string :=
  match rev l with
  | [] => None
  | p :: _ => Some (fst p)
  end.

Definition top_of (i : string) (l : list (string * Z)) : Prop :=
  forall p q, In p l -> In q l -> fst p = i -> fst q <> i -> snd q < snd p.

Definition stack_inv (l : list (string * Z)) (next : Z) (t : option string) : Prop :=
  NoDup (map fst l) /\
  NoDup (map snd l) /\
  (forall p, In p l -> snd p < next) /\
  Z.of_nat (List.length l) < next /\
  (forall i, t = Some i -> top_of i l).

Arguments initial_state : clear implicits.
Arguments no_options : clear implicits.

(** ** Concrete workspaces used in the examples *)

Definition viewport_1024x768 : Viewport :=
  {| innerWidth := 1024; innerHeight := 768 |}.

Definition viewport_1920x1080 : Viewport :=
  {| innerWidth := 1920; innerHeight := 1080 |}.

(** Three windows made by the toolbar button, ids [a], [b], [c]. *)
Definition one_window : ManagerState unit :=
  snd (createWindow (initial_state unit) "a" "New Window" tt (no_options unit)
         (initial_state unit)).

Definition two_windows : ManagerState unit :=
  snd (createWindow one_window "b" "New Window" tt (no_options unit) one_window).

Definition three_windows : ManagerState unit :=
  snd (createWindow two_windows "c" "New Window" tt (no_options unit) two_windows).

(** The [Development] entry of [layoutPresets]. *)
Definition preset_entry (title0 : string) (sz : Size) (pos : Point)
    (ty : WindowType) (ic : option unit) : PartialWindowState unit :=
  {| o_id := None; o_title := Some title0; o_component := None;
     o_props := None; o_position := Some pos; o_size := Some sz;
     o_isMinimized := None; o_isMaximized := None; o_zIndex := None;
     o_icon := ic; o_type := Some ty |}.

Definition Development : LayoutPreset unit :=
  {| name := "Development";
     preset_icon := Some tt;
     preset_windows :=
       [ preset_entry "Code Editor" {| width := 800; height := 600 |}
           {| x := 50; y := 50 |} editor (Some tt);
         preset_entry "Terminal" {| width := 600; height := 300 |}
           {| x := 50; y := 670 |} terminal (Some tt);
         preset_entry "Globe" {| width := 500; height := 600 |}
           {| x := 870; y := 50 |} browser (Some tt) ] |}.

(** The [Monitoring] entry of [layoutPresets]. *)
Definition Monitoring : LayoutPreset unit :=
  {| name := "Monitoring";
     preset_icon := Some tt;
     preset_windows :=
       [ preset_entry "System Monitor" {| width := 600; height := 400 |}
           {| x := 50; y := 50 |} monitor (Some tt);
         preset_entry "Environment Status" {| width := 600; height := 400 |}
           {| x := 670; y := 50 |} monitor (Some tt);
         preset_entry "Logs" {| width := 1220; height := 300 |}
           {| x := 50; y := 470 |} terminal (Some tt) ] |}.

(** Generated ids of the examples: [w0], [w1], ... *)
Definition gen_w (k : nat) : string := "w" ++ Number_toString k.

(** Window [a] maximized with its header button and then minimized with
    its header button. *)
Definition maximized_then_minimized : ManagerState unit :=
  minimizeWindow "a" (maximizeWindow "a" one_window).

(** That window as the manager stores it. *)
Definition window_a_hidden : WindowState unit :=
  set_isMinimized
    (set_isMaximized
       (newWindow (initial_state unit) "a" "New Window" tt (no_options unit))
       true)
    true.

(** Windows [a], [b], [c] with [b] minimized. *)
Definition b_minimized : ManagerState unit := minimizeWindow "b" three_windows.

(** Window [a] on the surface, then the [Tile Windows] button, then the
    render that follows. *)
Definition mounted_a : Mounted :=
  render viewport_1024x768 (windows one_window) [].

Definition a_tiled : ManagerState unit :=
  arrangeWindows one_window viewport_1024x768 tile one_window.

Definition mounted_a_tiled : Mounted :=
  render viewport_1024x768 (windows a_tiled) mounted_a.

(** Window [a] as the manager draws it on a 1024 by 768 viewport, at
    (100,100) and 600 by 400, and a pointer-down on its top handle, two
    pixels below the top edge. *)
Definition props_a : ResizableWindow.WindowProps :=
  windowProps viewport_1024x768
    (newWindow (initial_state unit) "a" "New Window" tt (no_options unit)).

Definition top_resize_started : ResizableWindow.State :=
  fst (ResizableWindow.handleResizeStart props_a (ResizableWindow.mount props_a)
         {| ResizableWindow.clientX := 400; ResizableWindow.clientY := 102 |}
         "top").

Definition top_resize_step : ResizableWindow.State * list ResizableWindow.Callback :=
  ResizableWindow.handleMouseMove viewport_1024x768 props_a top_resize_started
    {| ResizableWindow.clientX := 400; ResizableWindow.clientY := 112 |}.

(** The same on the left handle, one pixel right of the left edge. *)
Definition left_resize_started : ResizableWindow.State :=
  fst (ResizableWindow.handleResizeStart props_a (ResizableWindow.mount props_a)
         {| ResizableWindow.clientX := 101; ResizableWindow.clientY := 300 |}
         "left").

Definition left_resize_step : ResizableWindow.State * list ResizableWindow.Callback :=
  ResizableWindow.handleMouseMove viewport_1024x768 props_a left_resize_started
    {| ResizableWindow.clientX := 111; ResizableWindow.clientY := 300 |}.




(** Windows [a] and [b]; [a] is focused, then the windows are stacked. *)
Definition a_focused : ManagerState unit := focusWindow two_windows "a" two_windows.

Definition a_focused_then_stacked : ManagerState unit :=
  arrangeWindows a_focused viewport_1024x768 stack a_focused.

(** Windows [a], [b], [c] with [b] minimized, tiled. *)
Definition b_minimized_tiled : ManagerState unit :=
  arrangeWindows b_minimized viewport_1024x768 tile b_minimized.

(** The [Development] layout chosen on the empty workspace. *)
Definition development_applied : ManagerState unit :=
  applyLayoutPreset (fun _ => tt) gen_w Development (initial_state unit).

(** ** Sequences of events *)

(** The cells of a window after a sequence of pointer moves. *)
Definition window_after_moves (vp : Viewport) (p : ResizableWindow.WindowProps)
    (st : ResizableWindow.State) (es : list ResizableWindow.MouseEvent)
    : ResizableWindow.State :=
  fold_left (fun st' e => fst (ResizableWindow.handleMouseMove vp p st' e)) es st.

(** Two states that a pointer move cannot tell apart: the same modes and
    anchors, and the same values in the cells that the move reads. *)
Definition same_for_moves (p : ResizableWindow.WindowProps)
    (st' st : ResizableWindow.State) : Prop :=
  ResizableWindow.isDragging st' = ResizableWindow.isDragging st /\
  ResizableWindow.isResizing st' = ResizableWindow.isResizing st /\
  ResizableWindow.resizeDirection st' = ResizableWindow.resizeDirection st /\
  ResizableWindow.dragStart st' = ResizableWindow.dragStart st /\
  ResizableWindow.resizeStart st' = ResizableWindow.resizeStart st /\
  (ResizableWindow.isResizing st = false ->
     ResizableWindow.size st' = ResizableWindow.size st /\
     (ResizableWindow.isDragging st && negb (ResizableWindow.isMaximized p) = false ->
        ResizableWindow.position st' = ResizableWindow.position st)) /\
  (ResizableWindow.isResizing st = true ->
     (includes (ResizableWindow.resizeDirection st) "left" = false ->
        x (ResizableWindow.position st') = x (ResizableWindow.position st)) /\
     (includes (ResizableWindow.resizeDirection st) "top" = false ->
        y (ResizableWindow.position st') = y (ResizableWindow.position st))).

(** The callbacks of one event, handled in order by the manager of render
    [r]. *)
Definition deliver_all (Node : Type) (r : ManagerState Node)
    (out : list ResizableWindow.Callback) (s : ManagerState Node)
    : ManagerState Node :=
  fold_left (fun s' c => deliver r c s') out s.

(** The [New Window] button pressed once per generated id, each press
    handled in the render that follows the previous one. *)
Fixpoint press_new_window (Node : Type) (component0 : Node)
    (gens : list string) (s : ManagerState Node) : ManagerState Node :=
  match gens with
  | [] => s
  | gen :: gens' =>
      press_new_window component0 gens'
        (snd (createWindow s gen "New Window" component0 (no_options Node) s))
  end.

(** ** The advanced workspace, which hosts the window manager

    The panel operations of [AdvancedWorkspace].  The panel element itself
    ([DragDropPanel]) belongs to a file that is not part of these sources;
    the workspace draws every visible panel at its stored position and
    size. *)

Module Workspace.

Section Panels.

Variable Node : Type.

(** [interface WorkspacePanel]; [type] ranges over the same five names as
    the type of a window. *)
Record WorkspacePanel := {
  id : string;
  title : string;
  type : WindowType;
  component : Node;
  props : option Node;
  position : Point;
  size : Size;
  visible : bool;
  locked : bool;
  collapsed : bool
}.

(** [Partial<WorkspacePanel>]. *)
Record PartialWorkspacePanel := {
  o_id : option string;
  o_title : option string;
  o_type : option WindowType;
  o_component : option Node;
  o_props : option Node;
  o_position : option Point;
  o_size : option Size;
  o_visible : option bool;
  o_locked : option bool;
  o_collapsed : option bool
}.

Definition no_updates : PartialWorkspacePanel :=
  {| o_id := None; o_title := None; o_type := None; o_component := None;
     o_props := None; o_position := None; o_size := None; o_visible := None;
     o_locked := None; o_collapsed := None |}.

(** [interface WorkspaceLayout]; [saveLayout] never sets [windowLayout]. *)
Record WorkspaceLayout := {
  layout_id : string;
  layout_name : string;
  layout_panels : list WorkspacePanel;
  layout_theme : string;
  windowLayout : option (list (WindowState Node))
}.

(** The [useState] cells that the panel operations touch. *)
Record WorkspaceState := {
  panels : list WorkspacePanel;
  currentTheme : string;
  savedLayouts : list WorkspaceLayout
}.

Definition initial_workspace : WorkspaceState :=
  {| panels := []; currentTheme := "dark"; savedLayouts := [] |}.

Definition setPanels (ps : list WorkspacePanel) (s : WorkspaceState) : WorkspaceState :=
  {| panels := ps; currentTheme := currentTheme s; savedLayouts := savedLayouts s |}.

(** [{ ...panel, ...updates }]. *)
Definition spread (panel : WorkspacePanel) (updates : PartialWorkspacePanel)
    : WorkspacePanel :=
  {| id := or_default (o_id updates) (id panel);
     title := or_default (o_title updates) (title panel);
     type := or_default (o_type updates) (type panel);
     component := or_default (o_component updates) (component panel);
     props := match o_props updates with Some v => Some v | None => props panel end;
     position := or_default (o_position updates) (position panel);
     size := or_default (o_size updates) (size panel);
     visible := or_default (o_visible updates) (visible panel);
     locked := or_default (o_locked updates) (locked panel);
     collapsed := or_default (o_collapsed updates) (collapsed panel) |}.

(** [{ ...u1, ...u2 }] on two partial records. *)
Definition merge (u1 u2 : PartialWorkspacePanel) : PartialWorkspacePanel :=
  let over (A : Type) (a b : option A) : option A :=
    match b with Some v => Some v | None => a end in
  {| o_id := over _ (o_id u1) (o_id u2);
     o_title := over _ (o_title u1) (o_title u2);
     o_type := over _ (o_type u1) (o_type u2);
     o_component := over _ (o_component u1) (o_component u2);
     o_props := over _ (o_props u1) (o_props u2);
     o_position := over _ (o_position u1) (o_position u2);
     o_size := over _ (o_size u1) (o_size u2);
     o_visible := over _ (o_visible u1) (o_visible u2);
     o_locked := over _ (o_locked u1) (o_locked u2);
     o_collapsed := over _ (o_collapsed u1) (o_collapsed u2) |}.

(** [createPanel]: the cascade offset is computed from the number of
    panels of the render [r]; [gen] is the generated id, which is also the
    result. *)
Definition createPanel (r : WorkspaceState) (gen : string) (type0 : WindowType)
    (title0 : string) (component0 : Node) (props0 : Node) (s : WorkspaceState)
    : string * WorkspaceState :=
  let baseX := (50 + Q_of_nat (List.length (panels r)) * 30)%Q in
  let baseY := (50 + Q_of_nat (List.length (panels r)) * 30)%Q in
  (gen,
   setPanels
     (panels s ++
      [ {| id := gen; title := title0; type := type0; component := component0;
           props := Some props0;
           position := {| x := baseX; y := baseY |};
           size := {| width := 400; height := 300 |};
           visible := true; locked := false; collapsed := false |} ])
     s).

Definition updatePanel (i : string) (updates : PartialWorkspacePanel)
    (s : WorkspaceState) : WorkspaceState :=
  setPanels
    (map (fun panel => if String.eqb (id panel) i then spread panel updates
                       else panel)
         (panels s))
    s.

Definition removePanel (i : string) (s : WorkspaceState) : WorkspaceState :=
  setPanels (filter (fun panel => negb (String.eqb (id panel) i)) (panels s)) s.


(** [saveLayout]: [layoutName] is what [prompt] returned ([None] for
    [null]), [gen] the generated layout id; the panels and the theme are
    those of the render [r], copied panel by panel. *)
Definition saveLayout (r : WorkspaceState) (layoutName : option string)
    (gen : string) (s : WorkspaceState) : WorkspaceState :=
  match layoutName with
  | None => s
  | Some EmptyString => s
  | Some layoutName0 =>
      {| panels := panels s;
         currentTheme := currentTheme s;
         savedLayouts :=
           savedLayouts s ++
           [ {| layout_id := gen;
                layout_name := layoutName0;
                layout_panels := map (fun panel => spread panel no_updates) (panels r);
                layout_theme := currentTheme r;
                windowLayout := None |} ] |}
  end.

Definition loadLayout (layout : WorkspaceLayout) (s : WorkspaceState) : WorkspaceState :=
  {| panels := layout_panels layout;
     currentTheme := layout_theme layout;
     savedLayouts := savedLayouts s |}.

(** [clearWorkspace]: [confirmed] is what [confirm] returned. *)
Definition clearWorkspace (confirmed : bool) (s : WorkspaceState) : WorkspaceState :=
  if confirmed then setPanels [] s else s.


(** [createDevelopmentLayout], timer by timer, when nothing else happens
    in between: every callback is the one of the render [r] in which the
    button was pressed.  [g1], [g2], [g3] are the three generated ids,
    [c1], [c2], [c3] the three components, [props0] the default [{}]. *)
Definition createDevelopmentLayout (r : WorkspaceState) (g1 g2 g3 : string)
    (c1 c2 c3 : Node) (props0 : Node) (s : WorkspaceState) : WorkspaceState :=
  let s0 := setPanels [] s in
  let s1 := snd (createPanel r g1 editor "Code Editor" c1 props0 s0) in
  let '(terminalId, s2) := createPanel r g2 terminal "Terminal" c2 props0 s1 in
  let s2 :=
    updatePanel terminalId
      {| o_id := None; o_title := None; o_type := None; o_component := None;
         o_props := None; o_position := Some {| x := 50; y := 350 |};
         o_size := Some {| width := 600; height := 250 |};
         o_visible := None; o_locked := None; o_collapsed := None |} s2 in
  let '(browserId, s3) := createPanel r g3 browser "Preview" c3 props0 s2 in
  updatePanel browserId
    {| o_id := None; o_title := None; o_type := None; o_component := None;
       o_props := None; o_position := Some {| x := 670; y := 50 |};
       o_size := Some {| width := 400; height := 500 |};
       o_visible := None; o_locked := None; o_collapsed := None |} s3.

End Panels.

End Workspace.

(** ** The terminal component, [multi-terminal.tsx]

    The pane and session operations of [MultiTerminal]; the simulated
    shell is not part of this development. *)

Module MultiTerminal.

Module Session.

(** [interface TerminalSession]; [lastActivity] is a time in
    milliseconds. *)
Record TerminalSession := {
  id : string;
  title : string;
  command : option string;
  workingDirectory : string;
  isActive : bool;
  output : list string;
  isRunning : bool;
  lastActivity : Z
}.

End Session.

Inductive PanePosition := full | left | right | top | bottom.

Inductive Orientation := horizontal | vertical.

(** [interface TerminalPane]; [size] is a percentage. *)
Record TerminalPane := {
  id : string;
  sessions : list Session.TerminalSession;
  activeSessionId : string;
  position : PanePosition;
  size : Q
}.

(** The initial value of the [panes] cell; [now] is the time of the first
    render. *)
Definition initial_panes (now : Z) : list TerminalPane :=
  [ {| id := "main";
       sessions :=
         [ {| Session.id := "session-1";
              Session.title := "Main Terminal";
              Session.command := None;
              Session.workingDirectory := "/home/user";
              Session.isActive := true;
              Session.output :=
                [ "$ Welcome to Podplay Sanctuary Terminal";
                  "$ Current directory: /home/user";
                  "$ Type commands to interact with your environment...";
                  "" ]%string;
              Session.isRunning := false;
              Session.lastActivity := now |} ];
       activeSessionId := "session-1";
       position := full;
       size := 100 |} ].

(** The decimal text of [Date.now()] inside a template literal. *)
Definition Date_text (now : N) : string :=
  NilZero.string_of_uint (N.to_uint now).

(** The session object of [createSession].  [sessionId] is the generated
    id, [title0] the optional argument, [now] the value of [Date.now()]
    used in the default title, [today] the value of [new Date()]. *)
Definition newSession (sessionId : string) (title0 : option string)
    (now : N) (today : Z) : Session.TerminalSession :=
  {| Session.id := sessionId;
     Session.title := or_default_string title0 ("Terminal " ++ Date_text now);
     Session.command := None;
     Session.workingDirectory := "/home/user";
     Session.isActive := false;
     Session.output :=
       [ "$ New terminal session started";
         "$ Session ID: " ++ sessionId;
         "$ Ready for commands...";
         "" ]%string;
     Session.isRunning := false;
     Session.lastActivity := today |}.

(** [createSession]: the new panes, and the session passed to
    [onSessionCreate], which is called whether or not a pane matched. *)
Definition createSession (paneId : string) (sessionId : string)
    (title0 : option string) (now : N) (today : Z) (panes : list TerminalPane)
    : list TerminalPane * Session.TerminalSession :=
  (map (fun pane =>
          if String.eqb (id pane) paneId
          then {| id := id pane;
                  sessions := sessions pane ++ [newSession sessionId title0 now today];
                  activeSessionId := sessionId;
                  position := position pane;
                  size := size pane |}
          else pane)
       panes,
   newSession sessionId title0 now today).

(** [remainingSessions[remainingSessions.length - 1].id], or [''] for an
    empty list. *)
Definition last_session_id (l : list Session.TerminalSession) : string :=
  match rev l with
  | [] => ""
  | s :: _ => Session.id s
  end.

Definition closeSession (paneId sessionId : string) (panes : list TerminalPane)
    : list TerminalPane :=
  map (fun pane =>
         if String.eqb (id pane) paneId
         then
           let remainingSessions :=
             filter (fun s => negb (String.eqb (Session.id s) sessionId))
                    (sessions pane) in
           {| id := id pane;
              sessions := remainingSessions;
              activeSessionId := last_session_id remainingSessions;
              position := position pane;
              size := size pane |}
         else pane)
      panes.

Definition switchSession (paneId sessionId : string) (panes : list TerminalPane)
    : list TerminalPane :=
  map (fun pane =>
         {| id := id pane;
            sessions := sessions pane;
            activeSessionId :=
              if String.eqb (id pane) paneId then sessionId
              else activeSessionId pane;
            position := position pane;
            size := size pane |})
      panes.

(** [splitPane]: [paneId] is not read.  [now1] and [now2] are the two
    values of [Date.now()], [today] the value of [new Date()]. *)
Definition splitPane (paneId : string) (orientation : Orientation)
    (now1 now2 : N) (today : Z) (panes : list TerminalPane) : list TerminalPane :=
  let newPaneId := ("pane-" ++ Date_text now1)%string in
  let newSessionId := ("session-" ++ Date_text now2)%string in
  let newSession :=
    {| Session.id := newSessionId;
       Session.title := "Split Terminal";
       Session.command := None;
       Session.workingDirectory := "/home/user";
       Session.isActive := true;
       Session.output :=
         [ "$ Split terminal created"; "$ Ready for commands..."; "" ]%string;
       Session.isRunning := false;
       Session.lastActivity := today |} in
  let updatedPanes :=
    map (fun pane =>
           {| id := id pane;
              sessions := sessions pane;
              activeSessionId := activeSessionId pane;
              position := position pane;
              size := (size pane / 2)%Q |})
        panes in
  updatedPanes ++
  [ {| id := newPaneId;
       sessions := [newSession];
       activeSessionId := newSessionId;
       position := match orientation with horizontal => right | vertical => bottom end;
       size := 50 |} ].


(** The sum of the pane sizes, and the number of sessions shown in the
    status bar ([panes.reduce(...)]). *)
Definition total_size (panes : list TerminalPane) : Q :=
  fold_right (fun pane acc => (size pane + acc)%Q) 0%Q panes.

Definition session_count (panes : list TerminalPane) : nat :=
  fold_left (fun acc pane => (acc + List.length (sessions pane))%nat) panes 0%nat.

(** The panes that the four operations reach from the initial value. *)
Inductive reached : list TerminalPane -> Prop :=
| reached_initial now : reached (initial_panes now)
| reached_create paneId sessionId title0 now today panes :
    reached panes ->
    reached (fst (createSession paneId sessionId title0 now today panes))
| reached_close paneId sessionId panes :
    reached panes -> reached (closeSession paneId sessionId panes)
| reached_switch paneId sessionId panes :
    reached panes -> reached (switchSession paneId sessionId panes)
| reached_split paneId orientation now1 now2 today panes :
    reached panes ->
    reached (splitPane paneId orientation now1 now2 today panes).

End MultiTerminal.

(** ** More concrete inputs *)

(** Window [b] as [two_windows] stores it. *)
Definition window_b : WindowState unit :=
  newWindow one_window "b" "New Window" tt (no_options unit).

(** Window [a] stored as maximized, as the manager draws it. *)
Definition props_a_maximized : ResizableWindow.WindowProps :=
  windowProps viewport_1024x768
    (set_isMaximized
       (newWindow (initial_state unit) "a" "New Window" tt (no_options unit))
       true).

(** The header of window [a] pressed at (150,110), and a move to
    (200,160). *)
Definition press_150_110 : ResizableWindow.MouseEvent :=
  {| ResizableWindow.clientX := 150; ResizableWindow.clientY := 110 |}.

Definition move_200_160 : ResizableWindow.MouseEvent :=
  {| ResizableWindow.clientX := 200; ResizableWindow.clientY := 160 |}.

Definition a_drag_started : ResizableWindow.State :=
  fst (ResizableWindow.handleMouseDown props_a (ResizableWindow.mount props_a)
         press_150_110).

(** The bottom-right handle of window [a] pressed at (700,500). *)
Definition corner_resize_started : ResizableWindow.State :=
  fst (ResizableWindow.handleResizeStart props_a (ResizableWindow.mount props_a)
         {| ResizableWindow.clientX := 700; ResizableWindow.clientY := 500 |}
         "bottom-right").

(** A workspace with one panel, and an update of its position. *)
Definition one_panel : Workspace.WorkspaceState unit :=
  snd (Workspace.createPanel (Workspace.initial_workspace unit) "p1" terminal
         "Terminal" tt tt (Workspace.initial_workspace unit)).

Definition move_to_50_350 : Workspace.PartialWorkspacePanel unit :=
  {| Workspace.o_id := None; Workspace.o_title := None; Workspace.o_type := None;
     Workspace.o_component := None; Workspace.o_props := None;
     Workspace.o_position := Some {| x := 50; y := 350 |};
     Workspace.o_size := None; Workspace.o_visible := None;
     Workspace.o_locked := None; Workspace.o_collapsed := None |}.

Definition lock_panel : Workspace.PartialWorkspacePanel unit :=
  {| Workspace.o_id := None; Workspace.o_title := None; Workspace.o_type := None;
     Workspace.o_component := None; Workspace.o_props := None;
     Workspace.o_position := None; Workspace.o_size := None;
     Workspace.o_visible := None; Workspace.o_locked := Some true;
     Workspace.o_collapsed := None |}.

(** The terminal after one horizontal split, then a second session in the
    main pane, then that session closed. *)
Definition split_once : list MultiTerminal.TerminalPane :=
  MultiTerminal.splitPane "main" MultiTerminal.horizontal 1700000000000
    1700000000000 0 (MultiTerminal.initial_panes 0).

Definition two_sessions : list MultiTerminal.TerminalPane :=
  fst (MultiTerminal.createSession "main" "session-2" None 1700000000001 0
         split_once).



(** Window [a] as [one_window] stores it, and a second window made with
    the id and the [zIndex] of [a] in its options; then the tile
    arrangement on a 1024 by 768 viewport. *)
Definition window_a : WindowState unit :=
  newWindow (initial_state unit) "a" "New Window" tt (no_options unit).

Definition a_twice : ManagerState unit :=
  snd (createWindow one_window "b" "New Window" tt (copy_identity window_a)
         one_window).

Definition a_twice_tiled : ManagerState unit :=
  arrangeWindows a_twice viewport_1024x768 tile a_twice.

(** The left handle of window [a] pressed, then its header pressed before
    the pointer is released, then a move to (-50,300). *)
Definition resize_then_header_pressed : ResizableWindow.State :=
  fst (ResizableWindow.handleMouseDown props_a left_resize_started press_150_110).

Definition resize_then_header_moved
    : ResizableWindow.State * list ResizableWindow.Callback :=
  ResizableWindow.handleMouseMove viewport_1024x768 props_a
    resize_then_header_pressed
    {| ResizableWindow.clientX := -50; ResizableWindow.clientY := 300 |}.

(** ** Operations on an id *)

Section ManagerFacts.

Variable Node : Type.
Implicit Types (s r : ManagerState Node) (w : WindowState Node).
Implicit Types (ws : list (WindowState Node)) (i : string).






Lemma map_fixed (A : Type) (f : A -> A) (l : list A) :
  (forall a, In a l -> f a = a) -> map f l = l.
Proof.
  intros Hf. rewrite <- (map_id l) at 2. apply map_ext_in. exact Hf.
Qed.






End ManagerFacts.

(** ** Creation *)

Section Creation.

Variable Node : Type.
Implicit Types (s r : ManagerState Node) (w : WindowState Node).
Implicit Types (options : PartialWindowState Node).

Lemma not_NoDup_snoc (A : Type) (a : A) (l : list A) :
  In a l -> ~ NoDup (l ++ [a]).
Proof.
  intros Hin Hnd. apply NoDup_remove_2 in Hnd.
  apply Hnd. rewrite app_nil_r. exact Hin.
Qed.

(** C10.  [createWindow] appends one window and returns the generated id;
    every key present in [options] is the value of that key in the new
    window, [id], [zIndex], [isMinimized] and [isMaximized] included; so
    for every live window there are options with which the ids and the
    [zIndex] values of the resulting list have a duplicate. *)
Theorem options_override_assigned_fields r s gen title0 component0 options :
  let w := newWindow r gen title0 component0 options in
  let res := createWindow r gen title0 component0 options s in
  fst res = gen /\
  windows (snd res) = windows s ++ [w] /\
  (forall v, o_id options = Some v -> id w = v) /\
  (forall v, o_title options = Some v -> title w = v) /\
  (forall v, o_component options = Some v -> component w = v) /\
  (forall v, o_props options = Some v -> props w = Some v) /\
  (forall v, o_position options = Some v -> position w = v) /\
  (forall v, o_size options = Some v -> size w = v) /\
  (forall v, o_isMinimized options = Some v -> isMinimized w = v) /\
  (forall v, o_isMaximized options = Some v -> isMaximized w = v) /\
  (forall v, o_zIndex options = Some v -> zIndex w = v) /\
  (forall v, o_icon options = Some v -> icon w = Some v) /\
  (forall v, o_type options = Some v -> type w = v) /\
  (forall w0, In w0 (windows s) ->
     let w' := newWindow r gen title0 component0 (copy_identity w0) in
     let s' := snd (createWindow r gen title0 component0 (copy_identity w0) s) in
     id w' = id w0 /\ zIndex w' = zIndex w0 /\
     ~ NoDup (ids s') /\ ~ NoDup (map (@zIndex Node) (windows s'))).
Proof.
  cbv zeta. unfold createWindow, newWindow, spread, ids; simpl.
  repeat split; try (intros v ->; reflexivity).
  - rewrite map_app. simpl. apply not_NoDup_snoc, in_map, H.
  - rewrite map_app. simpl. apply not_NoDup_snoc, in_map, H.
Qed.

End Creation.

(** An instance of C10: a second window made with the id and the [zIndex]
    of window [a]. *)
Lemma options_override_witness :
  let a := newWindow (initial_state unit) "a" "New Window" tt (no_options unit) in
  let w := newWindow one_window "b" "New Window" tt (copy_identity a) in
  let s' := snd (createWindow one_window "b" "New Window" tt (copy_identity a)
                   one_window) in
  id w = "a"%string /\ zIndex w = 1 /\ ~ NoDup (ids s').
Proof.
  cbv zeta.
  pose proof (@options_override_assigned_fields unit one_window one_window "b"
                "New Window" tt
                (copy_identity (newWindow (initial_state unit) "a" "New Window" tt
                                  (no_options unit)))) as H.
  cbv zeta in H.
  destruct H as (_ & _ & Hid & _ & _ & _ & _ & _ & _ & _ & Hz & _ & _ & Hdup).
  split; [|split].
  - apply Hid. reflexivity.
  - apply Hz. reflexivity.
  - apply (Hdup (newWindow (initial_state unit) "a" "New Window" tt
                   (no_options unit))).
    left. reflexivity.
Defined.

(** ** Minimize and maximize *)

Section Toggles.

Variable Node : Type.
Implicit Types (s r : ManagerState Node) (w : WindowState Node).

Lemma instance_render_None vp (ws : list (WindowState Node)) m key :
  (forall w, In w ws -> id w = key -> isMinimized w = true) ->
  instance key (render vp ws m) = None.
Proof.
  intros Hmin. unfold render, visible.
  induction ws as [|w ws IH]; simpl; [reflexivity|].
  assert (IH' : instance key
                  (map (fun w0 => (id w0,
                          match instance (id w0) m with
                          | Some st => st
                          | None => ResizableWindow.mount (windowProps vp w0)
                          end))
                       (filter (fun w0 => negb (isMinimized w0)) ws)) = None).
  { apply IH. intros w0 Hw0. apply Hmin. right. exact Hw0. }
  destruct (isMinimized w) eqn:E; simpl; [exact IH'|].
  destruct (String.eqb_spec (id w) key) as [K|K]; [|exact IH'].
  rewrite (Hmin w (or_introl eq_refl) K) in E. discriminate.
Qed.

(** C4 (amended).  [minimizeWindow] flips [isMinimized] of the windows with
    the given id and leaves every [isMaximized] alone; [maximizeWindow]
    flips [isMaximized] and leaves every [isMinimized] alone.  A window
    with [isMinimized] set, whatever its [isMaximized], has a taskbar
    button and, when no visible window shares its id, no mounted
    instance. *)
Theorem minimize_and_maximize_are_independent s i :
  map (@isMaximized Node) (windows (minimizeWindow i s))
    = map (@isMaximized Node) (windows s) /\
  map (@isMinimized Node) (windows (minimizeWindow i s))
    = map (fun w => if String.eqb (id w) i then negb (isMinimized w)
                    else isMinimized w) (windows s) /\
  map (@isMinimized Node) (windows (maximizeWindow i s))
    = map (@isMinimized Node) (windows s) /\
  map (@isMaximized Node) (windows (maximizeWindow i s))
    = map (fun w => if String.eqb (id w) i then negb (isMaximized w)
                    else isMaximized w) (windows s) /\
  (forall w vp m,
     In w (windows s) -> isMinimized w = true ->
     (forall w', In w' (windows s) -> id w' = id w -> isMinimized w' = true) ->
     In (id w) (taskbar (windows s)) /\
     rendered vp w (render vp (windows s) m) = None).
Proof.
  repeat split; simpl; try (rewrite map_map; reflexivity).
  - unfold taskbar. apply in_map, filter_In. split; assumption.
  - unfold rendered. rewrite instance_render_None; [reflexivity|assumption].
Qed.

End Toggles.

(** C4, as stated, fails: both flags of window [a] are set. *)
Lemma both_flags_set_counterexample :
  map (fun w => (id w, isMinimized w, isMaximized w))
      (windows maximized_then_minimized)
  = [("a"%string, true, true)].
Proof. reflexivity. Qed.

Lemma minimize_and_maximize_witness :
  In "a"%string (taskbar (windows maximized_then_minimized)) /\
  rendered viewport_1024x768 window_a_hidden
    (render viewport_1024x768 (windows maximized_then_minimized) []) = None.
Proof.
  destruct (@minimize_and_maximize_are_independent unit
              maximized_then_minimized "a") as (_ & _ & _ & _ & H).
  apply (H window_a_hidden viewport_1024x768 []).
  - left. reflexivity.
  - reflexivity.
  - intros w' [<-|[]] _. reflexivity.
Defined.

(** ** Layout presets *)

Section Presets.

Variable Node : Type.
Variable placeholder : PartialWindowState Node -> Node.
Implicit Types (s r : ManagerState Node) (w : WindowState Node).

Lemma forEach_createWindow_spec r gen configs : forall index s,
  windows (forEach_createWindow placeholder r gen index configs s)
    = windows s ++ mapi_from index (preset_window placeholder r gen) configs /\
  nextZIndex (forEach_createWindow placeholder r gen index configs s)
    = nextZIndex s + Z.of_nat (List.length configs).
Proof.
  induction configs as [|c configs IH]; intros index s.
  - simpl. rewrite app_nil_r. split; [reflexivity|lia].
  - cbn [forEach_createWindow mapi_from].
    destruct (IH (S index)
               (snd (createWindow r (gen index)
                       (or_default_string (o_title c)
                          ("Window " ++ Number_toString (index + 1)))
                       (placeholder c) c s))) as [Hw Hz].
    rewrite Hw, Hz. cbn [createWindow snd windows nextZIndex List.length].
    split.
    + rewrite <- app_assoc. reflexivity.
    + lia.
Qed.

(** The windows of a preset are the only ones left, one per entry, and
    each takes the counter of the render in which the preset was chosen. *)
Lemma applyLayoutPreset_windows gen preset s :
  windows (applyLayoutPreset placeholder gen preset s)
    = mapi (preset_window placeholder s gen) (preset_windows preset) /\
  nextZIndex (applyLayoutPreset placeholder gen preset s)
    = nextZIndex s + Z.of_nat (List.length (preset_windows preset)).
Proof.
  unfold applyLayoutPreset, applyLayoutPreset_timeout.
  destruct (forEach_createWindow_spec s gen (preset_windows preset) 0
              (applyLayoutPreset_clear s)) as [Hw Hz].
  rewrite Hw, Hz. split; reflexivity.
Qed.

Lemma mapi_from_In (A B : Type) (f : A -> nat -> B) l : forall k b,
  In b (mapi_from k f l) -> exists a j, In a l /\ b = f a j.
Proof.
  induction l as [|a l IH]; simpl; intros k b Hb; [contradiction|].
  destruct Hb as [<-|Hb].
  - exists a, k. split; [left; reflexivity|reflexivity].
  - destruct (IH _ _ Hb) as (a' & j & Ha & E).
    exists a', j. split; [right; exact Ha|exact E].
Qed.

Lemma applyLayoutPreset_same_zIndex gen preset s w :
  (forall c, In c (preset_windows preset) -> o_zIndex c = None) ->
  In w (windows (applyLayoutPreset placeholder gen preset s)) ->
  zIndex w = nextZIndex s.
Proof.
  intros Hc Hw.
  rewrite (proj1 (applyLayoutPreset_windows gen preset s)) in Hw.
  apply mapi_from_In in Hw. destruct Hw as (c & j & Hin & ->).
  unfold preset_window, newWindow, spread. simpl.
  rewrite (Hc c Hin). reflexivity.
Qed.

End Presets.

(** C8, checked on the code: the three windows of the [Development]
    layout, chosen on the empty workspace, all take [zIndex] 1, and the
    counter ends at 4. *)
Theorem development_windows_share_zIndex :
  map (fun w => (id w, title w, position w, size w, zIndex w))
      (windows development_applied)
  = [ ("w0"%string, "Code Editor"%string, {| x := 50; y := 50 |},
       {| width := 800; height := 600 |}, 1);
      ("w1"%string, "Terminal"%string, {| x := 50; y := 670 |},
       {| width := 600; height := 300 |}, 1);
      ("w2"%string, "Globe"%string, {| x := 870; y := 50 |},
       {| width := 500; height := 600 |}, 1) ] /\
  nextZIndex development_applied = 4.
Proof. split; reflexivity. Qed.

(** ** Arrangements and minimized windows *)

Section Arrangements.

Variable Node : Type.
Implicit Types (s r : ManagerState Node) (w : WindowState Node).

Lemma mapi_from_map (A B : Type) (f : A -> B) (l : list A) : forall k,
  mapi_from k (fun a _ => f a) l = map f l.
Proof.
  induction l as [|a l IH]; intros k; simpl; [reflexivity|].
  f_equal. apply IH.
Qed.

Lemma mapi_from_nth (A B : Type) (f : A -> nat -> B) (l : list A) :
  forall j k a,
    nth_error l k = Some a ->
    nth_error (mapi_from j f l) k = Some (f a (j + k)%nat).
Proof.
  induction l as [|b l IH]; intros j k a Hk.
  - destruct k; discriminate.
  - destruct k; simpl in *.
    + injection Hk as ->. rewrite Nat.add_0_r. reflexivity.
    + rewrite (IH (S j) k a Hk). rewrite Nat.add_succ_r. reflexivity.
Qed.

(** The [tile] branch returns a minimized window as it is. *)
Lemma tile_keeps_minimized r vp s w :
  In w (windows s) -> isMinimized w = true ->
  In w (windows (arrangeWindows r vp tile s)).
Proof.
  intros Hin Hmin. simpl. unfold mapi. rewrite mapi_from_map.
  apply in_map_iff. exists w. split; [|exact Hin].
  unfold tileWindow. rewrite Hmin. reflexivity.
Qed.

(** No arrangement changes which windows there are, what they show, or
    which of them are minimized. *)
Lemma arrange_keeps_identity_and_content r vp mode s :
  map (fun w => (id w, title w, component w, props w, icon w, type w,
                 isMinimized w))
      (windows (arrangeWindows r vp mode s))
  = map (fun w => (id w, title w, component w, props w, icon w, type w,
                   isMinimized w))
        (windows s).
Proof.
  set (g := fun w : WindowState Node =>
              (id w, title w, component w, props w, icon w, type w,
               isMinimized w)).
  assert (Hk : forall (f : WindowState Node -> nat -> WindowState Node) l,
             (forall w k, g (f w k) = g w) ->
             forall k, map g (mapi_from k f l) = map g l).
  { intros f l Hf. induction l as [|a l IH]; intros k; simpl; [reflexivity|].
    rewrite Hf. f_equal. apply IH. }
  destruct mode; simpl; unfold mapi; apply Hk; intros w k; try reflexivity.
  unfold tileWindow. destruct (isMinimized w) eqn:E; [reflexivity|].
  unfold g. simpl. rewrite E. reflexivity.
Qed.

(** The [cascade] branch gives every window, minimized or not, the
    position of its place in the whole list. *)
Lemma cascade_rewrites_every_window r vp s k w :
  nth_error (windows s) k = Some w ->
  nth_error (windows (arrangeWindows r vp cascade s)) k
  = Some (arranged w
            {| x := 50 + Q_of_nat k * 30; y := 50 + Q_of_nat k * 30 |}
            {| width := 600; height := 400 |}).
Proof.
  intros Hk. simpl. unfold mapi.
  rewrite (mapi_from_nth _ _ 0 _ Hk). reflexivity.
Qed.

End Arrangements.

(** C5, checked on the code: with [b] minimized, [cascade] moves [b] from
    (130,130) to (80,80), and [stack] moves it to (100,100) and makes it
    800 by 600; [tile] leaves it as it was. *)
Theorem cascade_and_stack_move_minimized_window :
  map (fun w => (id w, isMinimized w, position w, size w)) (windows b_minimized)
  = [ ("a"%string, false, {| x := 100; y := 100 |}, {| width := 600; height := 400 |});
      ("b"%string, true, {| x := 130; y := 130 |}, {| width := 600; height := 400 |});
      ("c"%string, false, {| x := 160; y := 160 |}, {| width := 600; height := 400 |}) ] /\
  map (fun w => (id w, isMinimized w, position w, size w))
      (windows (arrangeWindows b_minimized viewport_1024x768 cascade b_minimized))
  = [ ("a"%string, false, {| x := 50; y := 50 |}, {| width := 600; height := 400 |});
      ("b"%string, true, {| x := 80; y := 80 |}, {| width := 600; height := 400 |});
      ("c"%string, false, {| x := 110; y := 110 |}, {| width := 600; height := 400 |}) ] /\
  map (fun w => (id w, isMinimized w, position w, size w))
      (windows (arrangeWindows b_minimized viewport_1024x768 stack b_minimized))
  = [ ("a"%string, false, {| x := 100; y := 100 |}, {| width := 800; height := 600 |});
      ("b"%string, true, {| x := 100; y := 100 |}, {| width := 800; height := 600 |});
      ("c"%string, false, {| x := 100; y := 100 |}, {| width := 800; height := 600 |}) ] /\
  filter (@isMinimized unit)
      (windows (arrangeWindows b_minimized viewport_1024x768 tile b_minimized))
  = filter (@isMinimized unit) (windows b_minimized).
Proof. repeat split; reflexivity. Qed.

(** ** Stored and drawn geometry *)

Section Rendering.

Variable Node : Type.

(** A key that is mounted and rendered again keeps its cells, whatever the
    manager now stores for it. *)
Lemma render_keeps_instance vp (ws : list (WindowState Node)) m key st :
  instance key m = Some st ->
  (exists w, In w ws /\ id w = key /\ isMinimized w = false) ->
  instance key (render vp ws m) = Some st.
Proof.
  intros Hm (w & Hin & Hid & Hvis). unfold render, visible.
  induction ws as [|w0 ws IH]; simpl; [contradiction|].
  destruct (isMinimized w0) eqn:E0; simpl.
  - destruct Hin as [->|Hin]; [congruence|]. apply IH, Hin.
  - destruct (String.eqb_spec (id w0) key) as [K|K].
    + rewrite K, Hm. reflexivity.
    + destruct Hin as [->|Hin]; [contradiction|]. apply IH, Hin.
Qed.

End Rendering.

(** C2, checked on the code: after [Tile Windows] the manager stores
    (50,50) and 914 by 608 for window [a], and the mounted window still
    draws (100,100) and 600 by 400. *)
Theorem tiled_window_is_drawn_at_old_geometry :
  map (fun w => (id w, position w, size w,
                 rendered viewport_1024x768 w mounted_a_tiled))
      (windows a_tiled)
  = [ ("a"%string, {| x := 50; y := 50 |}, {| width := 914; height := 608 |},
       Some (ResizableWindow.Rect {| x := 100; y := 100 |}
               {| width := 600; height := 400 |} 1)) ].
Proof. reflexivity. Qed.

(** ** Dragging and resizing one window *)

Module WindowFacts.

Import ResizableWindow.

Local Open Scope Q_scope.

(** On a handle whose name includes [top], the new [y] is the pointer's
    [clientY]: [resizeStart.y] is where the pointer was pressed, not where
    the window was. *)
Lemma resize_top_follows_pointer p st e :
  includes (resizeDirection st) "top" = true ->
  y (snd (resizeGeometry p st e)) == clientY e /\
  height (fst (resizeGeometry p st e))
    == clamp (height (minSize p)) (height (maxSize p))
             (start_height (resizeStart st) - (clientY e - start_y (resizeStart st))).
Proof.
  intros Htop. unfold resizeGeometry. rewrite Htop.
  destruct (includes (resizeDirection st) "left"); simpl; split;
    try reflexivity; ring.
Qed.

Lemma resize_left_follows_pointer p st e :
  includes (resizeDirection st) "left" = true ->
  x (snd (resizeGeometry p st e)) == clientX e /\
  width (fst (resizeGeometry p st e))
    == clamp (width (minSize p)) (width (maxSize p))
             (start_width (resizeStart st) - (clientX e - start_x (resizeStart st))).
Proof.
  intros Hleft. unfold resizeGeometry. rewrite Hleft.
  destruct (includes (resizeDirection st) "top"); simpl; split;
    try reflexivity; ring.
Qed.

(** C3, checked on the code.  Window [a] is at (100,100), 600 by 400, so
    its bottom edge is at 500 and its right edge at 700.  The top handle is
    pressed at [clientY] 102 and the pointer moves down by 10: the height
    goes from 400 to 390 and [y] from 100 to 112, so the bottom edge is at
    502.  The left handle is pressed at [clientX] 101 and the pointer moves
    right by 10: the width goes to 590 and [x] to 111, so the right edge is
    at 701. *)
Theorem resize_from_top_moves_bottom_edge :
  (y (position (mount props_a)) + height (size (mount props_a)) == 500 /\
   height (size (fst top_resize_step)) == 390 /\
   y (position (fst top_resize_step)) == 112 /\
   y (position (fst top_resize_step)) + height (size (fst top_resize_step)) == 502) /\
  (x (position (mount props_a)) + width (size (mount props_a)) == 700 /\
   width (size (fst left_resize_step)) == 590 /\
   x (position (fst left_resize_step)) == 111 /\
   x (position (fst left_resize_step)) + width (size (fst left_resize_step)) == 701).
Proof. vm_compute. repeat split. Qed.

(** *** Dragging *)




End WindowFacts.



(** ** The tile arrangement *)

Section Tiling.

Variable Node : Type.
Implicit Types (s r : ManagerState Node) (w : WindowState Node).

Lemma Math_ceil_sqrt_spec n :
  0 < n ->
  0 < Math_ceil_sqrt n /\
  (Math_ceil_sqrt n - 1) * (Math_ceil_sqrt n - 1) < n <= Math_ceil_sqrt n * Math_ceil_sqrt n.
Proof.
  intros Hn. unfold Math_ceil_sqrt.
  assert (Hs := Z.sqrt_spec n ltac:(lia)).
  assert (Hp := Z.sqrt_nonneg n). cbv zeta in Hs.
  destruct (Z.eqb_spec (Z.sqrt n * Z.sqrt n) n); nia.
Qed.

Lemma Math_ceil_div_spec n c :
  0 < c ->
  (Math_ceil_div n c - 1) * c < n <= Math_ceil_div n c * c.
Proof.
  intros Hc. unfold Math_ceil_div.
  assert (Hd := Z.div_mod (- n) c ltac:(lia)).
  assert (Hm := Z.mod_pos_bound (- n) c Hc). nia.
Qed.

Lemma findIndex_from_nth (l : list (WindowState Node)) : forall k j w,
  NoDup (map (@id Node) l) -> nth_error l j = Some w ->
  findIndex_from k (fun w' => String.eqb (id w') (id w)) l = k + Z.of_nat j.
Proof.
  induction l as [|a l IH]; intros k j w Hnd Hn.
  - destruct j; discriminate.
  - inversion Hnd as [|? ? Hhd Htl]; subst. destruct j; simpl in *.
    + inversion Hn; subst. rewrite String.eqb_refl. lia.
    + destruct (String.eqb_spec (id a) (id w)) as [E|E].
      * exfalso. apply Hhd. rewrite E. apply in_map.
        eapply nth_error_In; eassumption.
      * rewrite (IH (k + 1) j w Htl Hn). lia.
Qed.

Lemma tileWindow_isMinimized vp vis w :
  isMinimized (tileWindow vp vis w) = isMinimized w.
Proof.
  unfold tileWindow. destruct (isMinimized w) eqn:E; exact E.
Qed.

Lemma visible_tile vp vis (ws : list (WindowState Node)) :
  visible (map (tileWindow vp vis) ws) = map (tileWindow vp vis) (visible ws).
Proof.
  unfold visible. induction ws as [|a ws IH]; simpl; [reflexivity|].
  rewrite tileWindow_isMinimized.
  destruct (isMinimized a); simpl; [exact IH|]. f_equal. exact IH.
Qed.

Lemma visible_not_minimized (ws : list (WindowState Node)) k w :
  nth_error (visible ws) k = Some w -> isMinimized w = false.
Proof.
  intros Hn. apply nth_error_In in Hn. unfold visible in Hn.
  apply filter_In in Hn. destruct Hn as [_ Hn].
  apply negb_true_iff. exact Hn.
Qed.

(** Two different cells of the grid have no interior point in common,
    whatever the sign of the cell width and height. *)
Lemma cells_disjoint (W H : Q) (c1 r1 c2 r2 : Z) :
  c1 <> c2 \/ r1 <> r2 ->
  ~ ((50 + inject_Z c1 * W < 50 + inject_Z c2 * W + (W - 10)) /\
     (50 + inject_Z c2 * W < 50 + inject_Z c1 * W + (W - 10)) /\
     (50 + inject_Z r1 * H < 50 + inject_Z r2 * H + (H - 10)) /\
     (50 + inject_Z r2 * H < 50 + inject_Z r1 * H + (H - 10)))%Q.
Proof.
  assert (step : forall a b : Z, a < b -> (inject_Z a + 1 <= inject_Z b)%Q).
  { intros a b Hab. change 1%Q with (inject_Z 1).
    rewrite <- inject_Z_plus, <- Zle_Qle. lia. }
  intros Hne (Hx1 & Hx2 & Hy1 & Hy2).
  destruct Hne as [Hc|Hr].
  - destruct (Z.lt_total c1 c2) as [L|[L|L]]; [|contradiction|];
      apply step in L; nra.
  - destruct (Z.lt_total r1 r2) as [L|[L|L]]; [|contradiction|];
      apply step in L; nra.
Qed.

(** C7 (amended).  [arrangeWindows('tile')] on a list whose visible
    windows have pairwise different ids, [n] of them: the grid has
    [cols = ceil(sqrt n)] columns and [rows = ceil(n / cols)] rows, with
    cells of width [W = (innerWidth - 100) / cols] and height
    [H = (innerHeight - 150) / rows]; the visible window at place [k] of
    the visible list stays at place [k], keeps its id, and is stored at
    the cell of column [k mod cols] and row [k / cols]: its position is
    [(50 + col * W, 50 + row * H)], its size [(W - 10, H - 10)], and it is
    not maximized; two visible windows at different places share no
    interior point. *)
Theorem tile_assigns_grid_cells vp s :
  NoDup (map (@id Node) (visible (windows s))) ->
  let n := Z.of_nat (List.length (visible (windows s))) in
  let cols := Math_ceil_sqrt n in
  let rows := Math_ceil_div n cols in
  let W := ((innerWidth vp - 100) / inject_Z cols)%Q in
  let H := ((innerHeight vp - 150) / inject_Z rows)%Q in
  let s' := arrangeWindows s vp tile s in
  (0 < n ->
     0 < cols /\ 0 < rows /\
     (cols - 1) * (cols - 1) < n <= cols * cols /\
     (rows - 1) * cols < n <= rows * cols) /\
  List.length (visible (windows s')) = List.length (visible (windows s)) /\
  (forall k w,
     nth_error (visible (windows s)) k = Some w ->
     let col := Z.of_nat k mod cols in
     let row := Z.of_nat k / cols in
     0 <= col < cols /\ 0 <= row < rows /\
     Z.of_nat k = row * cols + col /\
     exists w',
       nth_error (visible (windows s')) k = Some w' /\
       id w' = id w /\
       x (position w') = (50 + inject_Z col * W)%Q /\
       y (position w') = (50 + inject_Z row * H)%Q /\
       width (size w') = (W - 10)%Q /\
       height (size w') = (H - 10)%Q /\
       isMinimized w' = false /\
       isMaximized w' = false) /\
  (forall k1 k2 w1 w2,
     k1 <> k2 ->
     nth_error (visible (windows s')) k1 = Some w1 ->
     nth_error (visible (windows s')) k2 = Some w2 ->
     ~ overlap w1 w2).
Proof.
  intros Hnd n cols rows W H s'.
  assert (Hvis : visible (windows s')
                 = map (tileWindow vp (visible (windows s))) (visible (windows s))).
  { subst s'. simpl. unfold mapi. rewrite mapi_from_map. apply visible_tile. }
  assert (Hgrid : 0 < n -> 0 < cols /\ 0 < rows /\
                  (cols - 1) * (cols - 1) < n <= cols * cols /\
                  (rows - 1) * cols < n <= rows * cols).
  { intros Hn. destruct (Math_ceil_sqrt_spec Hn) as [Hc Hcc].
    fold cols in Hc, Hcc.
    assert (Hrr := Math_ceil_div_spec n Hc). fold rows in Hrr.
    repeat split; try lia; nia. }
  assert (Hcell : forall k w,
     nth_error (visible (windows s)) k = Some w ->
     0 <= Z.of_nat k mod cols < cols /\ 0 <= Z.of_nat k / cols < rows /\
     Z.of_nat k = Z.of_nat k / cols * cols + Z.of_nat k mod cols /\
     tileWindow vp (visible (windows s)) w
     = arranged w
         {| x := 50 + inject_Z (Z.of_nat k mod cols) * W;
            y := 50 + inject_Z (Z.of_nat k / cols) * H |}
         {| width := W - 10; height := H - 10 |}).
  { intros k w Hk.
    assert (Hlt : Z.of_nat k < n).
    { subst n. apply Nat2Z.inj_lt. apply nth_error_Some. congruence. }
    destruct (Hgrid ltac:(lia)) as (Hc & Hr & _ & Hrr).
    assert (Hmod := Z.mod_pos_bound (Z.of_nat k) cols Hc).
    assert (Hdm := Z.div_mod (Z.of_nat k) cols ltac:(lia)).
    assert (Hdiv : 0 <= Z.of_nat k / cols) by (apply Z.div_pos; lia).
    split; [exact Hmod|]. split; [split; [exact Hdiv|nia]|]. split; [lia|].
    unfold tileWindow. rewrite (visible_not_minimized _ _ Hk).
    unfold findIndex. rewrite (@findIndex_from_nth (visible (windows s)) 0 k w Hnd Hk).
    rewrite Z.add_0_l.
    subst W H rows cols n.
    rewrite Z.rem_mod_nonneg by lia.
    reflexivity. }
  split; [|split; [|split]].
  - exact Hgrid.
  - rewrite Hvis. apply length_map.
  - intros k w Hk col row. destruct (Hcell k w Hk) as (Hc & Hr & Hkk & E).
    split; [exact Hc|]. split; [exact Hr|]. split; [exact Hkk|].
    exists (tileWindow vp (visible (windows s)) w). split.
    + rewrite Hvis. apply (map_nth_error _ _ _ Hk).
    + rewrite E. simpl. repeat split; try reflexivity.
      apply (visible_not_minimized _ _ Hk).
  - intros k1 k2 w1 w2 Hne H1 H2. rewrite Hvis in H1, H2.
    rewrite nth_error_map in H1, H2.
    destruct (nth_error (visible (windows s)) k1) as [v1|] eqn:E1; [|discriminate].
    destruct (nth_error (visible (windows s)) k2) as [v2|] eqn:E2; [|discriminate].
    simpl in H1, H2. inversion H1; inversion H2; subst w1 w2.
    destruct (Hcell k1 v1 E1) as (Hc1 & Hr1 & _ & ->).
    destruct (Hcell k2 v2 E2) as (Hc2 & Hr2 & _ & ->).
    unfold overlap; simpl. apply cells_disjoint.
    assert (Hc : 0 < cols) by lia.
    assert (D1 := Z.div_mod (Z.of_nat k1) cols ltac:(lia)).
    assert (D2 := Z.div_mod (Z.of_nat k2) cols ltac:(lia)).
    destruct (Z.eq_dec (Z.of_nat k1 mod cols) (Z.of_nat k2 mod cols)) as [Em|Em];
      [|left; exact Em].
    right. intros Ed. apply Hne. apply Nat2Z.inj. rewrite D1, D2, Em, Ed.
    reflexivity.
Qed.

End Tiling.

(** ** Stacking order *)

Section StackingPairs.

Implicit Types (l : list (string * Z)) (p q : string * Z) (i : string).

Lemma stack_inv_init : stack_inv [] 1 None.
Proof.
  split; [|split; [|split; [|split]]]; simpl.
  - constructor.
  - constructor.
  - intros p [].
  - lia.
  - intros i E. discriminate.
Qed.

Lemma NoDup_snoc (A : Type) (a : A) (l : list A) :
  NoDup l -> ~ In a l -> NoDup (l ++ [a]).
Proof.
  intros Hnd Hni. apply NoDup_rev in Hnd.
  rewrite <- (rev_involutive (l ++ [a])). apply NoDup_rev.
  rewrite rev_app_distr. simpl. constructor; [|exact Hnd].
  rewrite <- in_rev. exact Hni.
Qed.

Lemma stack_inv_create l next t gen :
  stack_inv l next t -> ~ In gen (map fst l) ->
  stack_inv (l ++ [(gen, next)]) (next + 1) (Some gen).
Proof.
  intros (Hid & Hz & Hlt & Hlen & _) Hfresh.
  split; [|split; [|split; [|split]]].
  - rewrite map_app. simpl. apply NoDup_snoc; assumption.
  - rewrite map_app. simpl. apply NoDup_snoc; [assumption|].
    intros Hin. apply in_map_iff in Hin. destruct Hin as (p & E & Hp).
    specialize (Hlt p Hp). lia.
  - intros p Hp. apply in_app_or in Hp. destruct Hp as [Hp|[<-|[]]].
    + specialize (Hlt p Hp). lia.
    + simpl. lia.
  - rewrite length_app. simpl. lia.
  - intros i E p q Hp Hq Hpi Hqi. injection E as <-.
    apply in_app_or in Hp. apply in_app_or in Hq.
    destruct Hq as [Hq|[<-|[]]]; [|simpl in Hqi; contradiction].
    destruct Hp as [Hp|[<-|[]]].
    + exfalso. apply Hfresh. rewrite <- Hpi. apply in_map, Hp.
    + simpl. apply Hlt, Hq.
Qed.

Lemma raise_pairs_fst next i l : map fst (raise_pairs next i l) = map fst l.
Proof. unfold raise_pairs. rewrite map_map. reflexivity. Qed.

Lemma raise_pairs_absent next i l :
  ~ In i (map fst l) -> raise_pairs next i l = l.
Proof.
  intros Hni. unfold raise_pairs. rewrite <- (map_id l) at 2.
  apply map_ext_in. intros p Hp.
  destruct (String.eqb_spec (fst p) i) as [E|E].
  - exfalso. apply Hni. rewrite <- E. apply in_map, Hp.
  - destruct p; reflexivity.
Qed.

Lemma raise_pairs_twice next i l :
  raise_pairs next i (raise_pairs next i l) = raise_pairs next i l.
Proof.
  unfold raise_pairs. rewrite map_map. apply map_ext. intros p. simpl.
  destruct (String.eqb (fst p) i); reflexivity.
Qed.

Lemma raise_pairs_NoDup_snd next i l :
  NoDup (map fst l) -> NoDup (map snd l) ->
  (forall p, In p l -> snd p < next) ->
  NoDup (map snd (raise_pairs next i l)).
Proof.
  induction l as [|a l IH]; simpl; intros Hid Hz Hlt; [constructor|].
  inversion Hid as [|? ? Hid1 Hid2]; inversion Hz as [|? ? Hz1 Hz2]; subst.
  constructor.
  - intros Hin. apply in_map_iff in Hin. destruct Hin as (q' & E & Hq').
    apply in_map_iff in Hq'. destruct Hq' as (q & <- & Hq). simpl in E.
    assert (Ha := Hlt a (or_introl eq_refl)).
    assert (Hqlt := Hlt q (or_intror Hq)).
    destruct (String.eqb_spec (fst a) i) as [Ea|Ea];
      destruct (String.eqb_spec (fst q) i) as [Eq|Eq]; try lia.
    + apply Hid1. rewrite Ea, <- Eq. apply in_map, Hq.
    + apply Hz1. rewrite <- E. apply in_map, Hq.
  - apply IH; [assumption|assumption|].
    intros p Hp. apply Hlt. right. exact Hp.
Qed.

Lemma stack_inv_raise l next t i m :
  stack_inv l next t -> 1 <= m ->
  stack_inv (raise_pairs next i l) (next + m)
    (if existsb (String.eqb i) (map fst l) then Some i else t).
Proof.
  intros (Hid & Hz & Hlt & Hlen & Htop) Hm.
  destruct (existsb (String.eqb i) (map fst l)) eqn:Ex.
  - split; [|split; [|split; [|split]]].
    + rewrite raise_pairs_fst. exact Hid.
    + apply raise_pairs_NoDup_snd; assumption.
    + intros p Hp. apply in_map_iff in Hp. destruct Hp as (p0 & <- & Hp0).
      simpl. specialize (Hlt p0 Hp0).
      destruct (String.eqb (fst p0) i); lia.
    + unfold raise_pairs. rewrite length_map. lia.
    + intros j E p q Hp Hq Hpi Hqi. injection E as <-.
      apply in_map_iff in Hp. destruct Hp as (p0 & <- & Hp0).
      apply in_map_iff in Hq. destruct Hq as (q0 & <- & Hq0).
      simpl in *. apply String.eqb_eq in Hpi. apply String.eqb_neq in Hqi.
      rewrite Hpi, Hqi. apply Hlt, Hq0.
  - assert (Hni : ~ In i (map fst l)).
    { intros Hin. apply Bool.not_true_iff_false in Ex. apply Ex.
      apply existsb_exists. exists i. split; [exact Hin|apply String.eqb_refl]. }
    rewrite raise_pairs_absent by exact Hni.
    split; [|split; [|split; [|split]]]; try assumption; try lia.
    intros p Hp. specialize (Hlt p Hp). lia.
Qed.

Lemma close_pairs_incl i l p : In p (close_pairs i l) -> In p l.
Proof. unfold close_pairs. intros Hp. apply filter_In in Hp. tauto. Qed.

Lemma NoDup_map_filter (A B : Type) (f : A -> B) (g : A -> bool) (l : list A) :
  NoDup (map f l) -> NoDup (map f (filter g l)).
Proof.
  induction l as [|a l IH]; simpl; intros Hnd; [constructor|].
  inversion Hnd as [|? ? H1 H2]; subst.
  destruct (g a); simpl; [|apply IH, H2].
  constructor; [|apply IH, H2].
  intros Hin. apply H1. apply in_map_iff in Hin.
  destruct Hin as (b & E & Hb). apply filter_In in Hb.
  rewrite <- E. apply in_map. tauto.
Qed.

Lemma stack_inv_close l next t i :
  stack_inv l next t -> stack_inv (close_pairs i l) next t.
Proof.
  intros (Hid & Hz & Hlt & Hlen & Htop).
  split; [|split; [|split; [|split]]].
  - apply NoDup_map_filter, Hid.
  - apply NoDup_map_filter, Hz.
  - intros p Hp. apply Hlt. eapply close_pairs_incl, Hp.
  - assert (H := filter_length_le (fun p => negb (String.eqb (fst p) i)) l).
    unfold close_pairs. lia.
  - intros j E p q Hp Hq. apply (Htop j E); eapply close_pairs_incl; eassumption.
Qed.

End StackingPairs.

Section StackArrangement.

Implicit Types (l : list (string * Z)) (p q : string * Z) (i : string).

Lemma mapi_from_length (A B : Type) (f : A -> nat -> B) (l : list A) : forall k,
  List.length (mapi_from k f l) = List.length l.
Proof.
  induction l as [|a l IH]; intros k; simpl; [reflexivity|].
  f_equal. apply IH.
Qed.

Lemma mapi_from_app (A B : Type) (f : A -> nat -> B) (l1 l2 : list A) : forall k,
  mapi_from k f (l1 ++ l2)
  = mapi_from k f l1 ++ mapi_from (k + List.length l1) f l2.
Proof.
  induction l1 as [|a l1 IH]; intros k; simpl.
  - rewrite Nat.add_0_r. reflexivity.
  - f_equal. rewrite IH. f_equal. f_equal. lia.
Qed.

Lemma numbered_fst l : forall k,
  map fst (mapi_from k (fun p j => (fst p, Z.of_nat j + 1)) l) = map fst l.
Proof.
  induction l as [|a l IH]; intros k; simpl; [reflexivity|].
  f_equal. apply IH.
Qed.

Lemma numbered_snd l : forall k,
  map snd (mapi_from k (fun p j => (fst p, Z.of_nat j + 1)) l)
  = map (fun j => Z.of_nat j + 1) (seq k (List.length l)).
Proof.
  induction l as [|a l IH]; intros k; simpl; [reflexivity|].
  f_equal. apply IH.
Qed.

Lemma numbered_bound l k p :
  In p (mapi_from k (fun p j => (fst p, Z.of_nat j + 1)) l) ->
  Z.of_nat k < snd p <= Z.of_nat (k + List.length l).
Proof.
  intros Hp. apply (in_map snd) in Hp. rewrite numbered_snd in Hp.
  apply in_map_iff in Hp. destruct Hp as (j & <- & Hj).
  apply in_seq in Hj. lia.
Qed.

Lemma stack_inv_stack l next t :
  stack_inv l next t -> stack_inv (stack_pairs l) next (last_fst l).
Proof.
  intros (Hid & Hz & Hlt & Hlen & _). unfold stack_pairs, mapi.
  split; [|split; [|split; [|split]]].
  - rewrite numbered_fst. exact Hid.
  - rewrite numbered_snd.
    apply NoDup_map_NoDup_ForallPairs; [|apply seq_NoDup].
    intros a b _ _ E. lia.
  - intros p Hp. apply numbered_bound in Hp. simpl in Hp. lia.
  - rewrite mapi_from_length. exact Hlen.
  - intros i E. unfold last_fst in E.
    destruct (rev l) as [|p0 r0] eqn:Er; [discriminate|].
    injection E as <-.
    assert (El : l = rev r0 ++ [p0]).
    { rewrite <- (rev_involutive l), Er. reflexivity. }
    rewrite El in Hid |- *. clear El Er Hz Hlt Hlen.
    rewrite mapi_from_app. simpl.
    rewrite map_app in Hid. simpl in Hid.
    apply NoDup_remove_2 in Hid. rewrite app_nil_r in Hid.
    intros p q Hp Hq Hpi Hqi.
    apply in_app_or in Hp. apply in_app_or in Hq.
    destruct Hq as [Hq|[<-|[]]]; [|simpl in Hqi; contradiction].
    destruct Hp as [Hp|[<-|[]]].
    + exfalso. apply Hid. rewrite <- Hpi.
      apply (in_map fst) in Hp. rewrite numbered_fst in Hp. exact Hp.
    + apply numbered_bound in Hq. simpl in *. lia.
Qed.

End StackArrangement.

Section Stacking.

Variable Node : Type.
Implicit Types (s r : ManagerState Node) (w : WindowState Node) (i : string).

Lemma stacking_create r s gen title0 component0 (options : PartialWindowState Node) :
  o_id options = None -> o_zIndex options = None ->
  stacking (snd (createWindow r gen title0 component0 options s))
  = stacking s ++ [(gen, nextZIndex r)].
Proof.
  intros Hid Hz. unfold stacking, createWindow, newWindow, spread. simpl.
  rewrite map_app. simpl. rewrite Hid, Hz. reflexivity.
Qed.

Lemma stacking_focus r i s :
  stacking (focusWindow r i s) = raise_pairs (nextZIndex r) i (stacking s).
Proof.
  unfold stacking, raise_pairs. simpl. rewrite !map_map. reflexivity.
Qed.

Lemma stacking_close i s :
  stacking (closeWindow i s) = close_pairs i (stacking s).
Proof.
  unfold stacking, close_pairs. simpl.
  induction (windows s) as [|w ws IH]; simpl; [reflexivity|].
  destruct (negb (String.eqb (id w) i)); simpl; [f_equal|]; exact IH.
Qed.

Lemma stacking_minimize i s : stacking (minimizeWindow i s) = stacking s.
Proof. unfold stacking. simpl. rewrite map_map. reflexivity. Qed.

Lemma stacking_maximize i s : stacking (maximizeWindow i s) = stacking s.
Proof. unfold stacking. simpl. rewrite map_map. reflexivity. Qed.

Lemma stacking_move i p s : stacking (updateWindowPosition i p s) = stacking s.
Proof. unfold stacking. simpl. rewrite map_map. reflexivity. Qed.

Lemma stacking_resize i sz s : stacking (updateWindowSize i sz s) = stacking s.
Proof. unfold stacking. simpl. rewrite map_map. reflexivity. Qed.

Lemma map_mapi_from (A B C : Type) (g : B -> C) (f : A -> nat -> B)
    (f' : C -> nat -> C) (h : A -> C) (l : list A) :
  (forall a k, g (f a k) = f' (h a) k) ->
  forall k, map g (mapi_from k f l) = mapi_from k f' (map h l).
Proof.
  intros Hf. induction l as [|a l IH]; intros k; simpl; [reflexivity|].
  rewrite Hf. f_equal. apply IH.
Qed.

Lemma mapi_from_const (C : Type) (l : list C) : forall k,
  mapi_from k (fun c _ => c) l = l.
Proof.
  induction l as [|a l IH]; intros k; simpl; [reflexivity|].
  f_equal. apply IH.
Qed.

Lemma stacking_cascade r vp s : stacking (arrangeWindows r vp cascade s) = stacking s.
Proof.
  unfold stacking. simpl. unfold mapi.
  rewrite (@map_mapi_from _ _ _ _ _ (fun c _ => c) (fun w => (id w, zIndex w)));
    [apply mapi_from_const|reflexivity].
Qed.

Lemma stacking_tile r vp s : stacking (arrangeWindows r vp tile s) = stacking s.
Proof.
  unfold stacking. simpl. unfold mapi.
  rewrite (@map_mapi_from _ _ _ _ _ (fun c _ => c) (fun w => (id w, zIndex w)));
    [apply mapi_from_const|].
  intros w k. unfold tileWindow. destruct (isMinimized w); reflexivity.
Qed.

Lemma stacking_stack r vp s :
  stacking (arrangeWindows r vp stack s) = stack_pairs (stacking s).
Proof.
  unfold stacking, stack_pairs. simpl. unfold mapi.
  apply map_mapi_from. reflexivity.
Qed.

Lemma has_id_stacking i s :
  has_id i s = existsb (String.eqb i) (map fst (stacking s)).
Proof.
  unfold has_id, some, stacking. rewrite map_map. simpl.
  induction (windows s) as [|w ws IH]; simpl; [reflexivity|].
  rewrite IH, (String.eqb_sym (id w) i). reflexivity.
Qed.

Lemma last_id_stacking s : last_id (windows s) = last_fst (stacking s).
Proof.
  unfold last_id, last_fst, stacking. rewrite <- map_rev.
  destruct (rev (windows s)); reflexivity.
Qed.

Lemma raised_stack_inv s t :
  raised s t -> stack_inv (stacking s) (nextZIndex s) t.
Proof.
  induction 1 as [ | s t gen title0 component0 options _ IH Hfresh Hid Hz
                   | s t i _ IH | s t i _ IH | s t i _ IH | s t i _ IH
                   | s t i _ IH | s t i p _ IH | s t i sz _ IH
                   | s t vp _ IH | s t vp _ IH | s t vp _ IH ].
  - apply stack_inv_init.
  - rewrite stacking_create by assumption. simpl.
    apply stack_inv_create with (t := t); [exact IH|].
    unfold stacking. rewrite map_map.
    exact Hfresh.
  - rewrite stacking_focus, has_id_stacking.
    apply (@stack_inv_raise (stacking s) (nextZIndex s) t i 1 IH). lia.
  - rewrite !stacking_focus, raise_pairs_twice, has_id_stacking.
    change (nextZIndex (focusWindow s i (focusWindow s i s)))
      with (nextZIndex s + 1 + 1).
    replace (nextZIndex s + 1 + 1) with (nextZIndex s + 2) by lia.
    apply (@stack_inv_raise (stacking s) (nextZIndex s) t i 2 IH). lia.
  - rewrite stacking_close. simpl. apply stack_inv_close, IH.
  - rewrite stacking_minimize. exact IH.
  - rewrite stacking_maximize. exact IH.
  - rewrite stacking_move. exact IH.
  - rewrite stacking_resize. exact IH.
  - rewrite stacking_cascade. exact IH.
  - rewrite stacking_tile. exact IH.
  - rewrite stacking_stack, last_id_stacking. simpl.
    apply stack_inv_stack with (t := t). exact IH.
Qed.

(** C1 (amended).  At every state reached from the empty workspace by
    [createWindow] (generated id not in use, options without [id] and
    [zIndex]), [focusWindow] (once, or twice in the same event),
    [closeWindow], [minimizeWindow], [maximizeWindow],
    [updateWindowPosition], [updateWindowSize] and [arrangeWindows] in its
    three modes, one operation per event, the [zIndex] values of the
    windows are pairwise different, and the window raised last, if it is
    still there, is strictly above every other window: that is the window
    created or focused last, or after a [stack] arrangement the last
    window of the list. *)
Theorem zIndex_distinct_and_raised_window_on_top s t :
  raised s t ->
  NoDup (map (@zIndex Node) (windows s)) /\
  (forall i, t = Some i -> on_top i s).
Proof.
  intros Hr. destruct (raised_stack_inv Hr) as (_ & Hz & _ & _ & Htop).
  split.
  - unfold stacking in Hz. rewrite map_map in Hz. exact Hz.
  - intros i E w w' Hw Hw' Hi Hi'.
    apply (Htop i E (id w, zIndex w) (id w', zIndex w')).
    + unfold stacking. apply (in_map (fun w => (id w, zIndex w))), Hw.
    + unfold stacking. apply (in_map (fun w => (id w, zIndex w))), Hw'.
    + exact Hi.
    + exact Hi'.
Qed.

End Stacking.

(** ** Instances *)

(** C1, as stated, fails: [a] is focused last and takes [zIndex] 3; the
    [stack] arrangement then gives [a] the value 1 and [b] the value 2. *)
Lemma stack_lowers_focused_window_counterexample :
  map (fun w => (id w, zIndex w)) (windows a_focused)
    = [("a"%string, 3); ("b"%string, 2)] /\
  map (fun w => (id w, zIndex w)) (windows a_focused_then_stacked)
    = [("a"%string, 1); ("b"%string, 2)] /\
  ~ on_top "a" a_focused_then_stacked.
Proof.
  split; [reflexivity|]. split; [reflexivity|].
  intros Htop.
  assert (H := Htop (nth 0 (windows a_focused_then_stacked) window_a_hidden)
                    (nth 1 (windows a_focused_then_stacked) window_a_hidden)).
  simpl in H.
  assert (H' := H (or_introl eq_refl) (or_intror (or_introl eq_refl)) eq_refl).
  assert (Hlt : 2 < 1) by (apply H'; discriminate).
  lia.
Qed.

Lemma raised_a_focused : raised a_focused (Some "a"%string).
Proof.
  apply (@raise_focus unit two_windows (Some "b"%string) "a").
  apply (@raise_create unit one_window (Some "a"%string) "b" "New Window" tt
           (no_options unit)); try reflexivity.
  - apply (@raise_create unit (initial_state unit) None "a" "New Window" tt
             (no_options unit)); try reflexivity.
    + apply raise_init.
    + simpl. tauto.
  - simpl. intros [H|[]]. discriminate.
Defined.

Lemma zIndex_distinct_witness :
  NoDup (map (@zIndex unit) (windows a_focused)) /\ on_top "a" a_focused.
Proof.
  destruct (zIndex_distinct_and_raised_window_on_top raised_a_focused) as [Hnd Htop].
  split; [exact Hnd|]. apply Htop. reflexivity.
Defined.

Lemma tile_assigns_grid_cells_witness :
  NoDup (map (@id unit) (visible (windows b_minimized))) /\
  ~ overlap (nth 0 (visible (windows b_minimized_tiled)) window_a_hidden)
            (nth 1 (visible (windows b_minimized_tiled)) window_a_hidden) /\
  exists w',
    nth_error (visible (windows b_minimized_tiled)) 1 = Some w' /\
    id w' = "c"%string /\
    (x (position w') == 512)%Q /\ (y (position w') == 50)%Q /\
    (width (size w') == 452)%Q /\ (height (size w') == 608)%Q.
Proof.
  assert (Hnd : NoDup (map (@id unit) (visible (windows b_minimized)))).
  { simpl. constructor; [|constructor; [|constructor]]; simpl.
    - intros [H|[]]. discriminate.
    - tauto. }
  split; [exact Hnd|].
  destruct (tile_assigns_grid_cells viewport_1024x768 b_minimized Hnd)
    as (_ & _ & Hcell & Hno).
  split.
  - apply (Hno 0%nat 1%nat); [discriminate|reflexivity|reflexivity].
  - destruct (Hcell 1%nat (nth 1 (visible (windows b_minimized)) window_a_hidden)
                eq_refl)
      as (_ & _ & _ & w' & Hn & Hid & Hx & Hy & Hw & Hh & _ & _).
    exists w'. split; [exact Hn|]. split; [exact Hid|].
    rewrite Hx, Hy, Hw, Hh. repeat split; reflexivity.
Defined.

(** C7, as stated, fails: two visible windows with the same id (the
    second made with the id of the first in its options) are given the
    same cell; the window at place 1 is stored at (50,50) and not at the
    cell of column 1, x = 512, and the two rectangles coincide. *)
Lemma tile_same_id_same_cell_counterexample :
  map (fun w => (id w, isMinimized w)) (windows a_twice)
    = [("a"%string, false); ("a"%string, false)] /\
  (x (position (nth 1 (visible (windows a_twice_tiled)) window_a)) == 50)%Q /\
  ~ (x (position (nth 1 (visible (windows a_twice_tiled)) window_a)) == 512)%Q /\
  overlap (nth 0 (visible (windows a_twice_tiled)) window_a)
          (nth 1 (visible (windows a_twice_tiled)) window_a).
Proof.
  split; [reflexivity|]. split; [reflexivity|]. split.
  - vm_compute. discriminate.
  - vm_compute. repeat split.
Qed.

(** A press on the header while a resize from the left handle is in
    progress sets both modes; the next move calls [onMove] with the
    clamped drag position, then [onResize] and [onMove] with the resize
    geometry, and the window keeps the latter: x = -50. *)
Lemma header_press_during_resize_example :
  ResizableWindow.isDragging resize_then_header_pressed = true /\
  ResizableWindow.isResizing resize_then_header_pressed = true /\
  resize_then_header_moved
  = (ResizableWindow.setPosition
       (ResizableWindow.setSize resize_then_header_pressed
          {| width := 751; height := 400 |})
       {| x := -50; y := 100 |},
     [ ResizableWindow.onMove "a" {| x := 0; y := 290 |};
       ResizableWindow.onResize "a" {| width := 751; height := 400 |};
       ResizableWindow.onMove "a" {| x := -50; y := 100 |} ]).
Proof. repeat split. Qed.


(** ** More on the leaf window *)

Module WindowMoves.

Import ResizableWindow.

Local Open Scope Q_scope.

Lemma clamp_bounds lo hi v :
  lo <= clamp lo hi v /\ (lo <= hi -> clamp lo hi v <= hi).
Proof.
  unfold clamp.
  destruct (Q.max_spec lo (Qmin hi v)) as [[? E]|[? E]];
  destruct (Q.min_spec hi v) as [[? F]|[? F]];
  rewrite E; try rewrite F; split; intros; lra.
Qed.

Lemma handleMouseMove_resizing vp p st e :
  isResizing st = true ->
  size (fst (handleMouseMove vp p st e)) = fst (resizeGeometry p st e) /\
  position (fst (handleMouseMove vp p st e)) = snd (resizeGeometry p st e) /\
  In (onResize (id p) (fst (resizeGeometry p st e)))
     (snd (handleMouseMove vp p st e)) /\
  In (onMove (id p) (snd (resizeGeometry p st e)))
     (snd (handleMouseMove vp p st e)).
Proof.
  intros Hr. unfold handleMouseMove. rewrite Hr.
  destruct (isDragging st && negb (isMaximized p));
    destruct (resizeGeometry p st e) as [sz pos]; simpl;
    repeat split; auto; apply in_or_app; right; simpl; auto.
Qed.

(** While a window is resized, each step clamps the width to
    [[minSize.width, maxSize.width]] when the handle is on the left or the
    right, and leaves it at the width of the pointer-down otherwise; the
    same for the height with top and bottom.  The lower bound always
    holds for a clamped side, the upper bound when [minSize <= maxSize].
    The step reports the new size with [onResize]. *)
Theorem resize_step_clamps_handle_axes vp p st e :
  isResizing st = true ->
  let res := handleMouseMove vp p st e in
  let d := resizeDirection st in
  (includes d "left" || includes d "right" = true ->
     width (minSize p) <= width (size (fst res)) /\
     (width (minSize p) <= width (maxSize p) ->
        width (size (fst res)) <= width (maxSize p))) /\
  (includes d "left" || includes d "right" = false ->
     width (size (fst res)) = start_width (resizeStart st)) /\
  (includes d "top" || includes d "bottom" = true ->
     height (minSize p) <= height (size (fst res)) /\
     (height (minSize p) <= height (maxSize p) ->
        height (size (fst res)) <= height (maxSize p))) /\
  (includes d "top" || includes d "bottom" = false ->
     height (size (fst res)) = start_height (resizeStart st)) /\
  In (onResize (id p) (size (fst res))) (snd res).
Proof.
  intros Hr res d. subst res d.
  destruct (@handleMouseMove_resizing vp p st e Hr) as (Hs & _ & Hin & _).
  rewrite Hs. clear Hs. split; [|split; [|split; [|split]]]; [| | | |exact Hin];
    unfold resizeGeometry;
    destruct (includes (resizeDirection st) "left");
    destruct (includes (resizeDirection st) "right");
    destruct (includes (resizeDirection st) "top");
    destruct (includes (resizeDirection st) "bottom");
    simpl; intros H; try discriminate; try reflexivity;
    apply clamp_bounds.
Qed.

(** A resize step on a handle that is neither on the left nor on the top
    (right, bottom, bottom-right) leaves the window where it is, reports
    that position with [onMove], and sets the size to the size of the
    pointer-down plus the pointer's travel, clamped. *)
Theorem resize_from_right_or_bottom_keeps_corner vp p st e :
  isResizing st = true ->
  includes (resizeDirection st) "left" = false ->
  includes (resizeDirection st) "top" = false ->
  let res := handleMouseMove vp p st e in
  position (fst res) = position st /\
  In (onMove (id p) (position st)) (snd res) /\
  (includes (resizeDirection st) "right" = true ->
     width (size (fst res))
     = clamp (width (minSize p)) (width (maxSize p))
         (start_width (resizeStart st) + (clientX e - start_x (resizeStart st)))) /\
  (includes (resizeDirection st) "bottom" = true ->
     height (size (fst res))
     = clamp (height (minSize p)) (height (maxSize p))
         (start_height (resizeStart st) + (clientY e - start_y (resizeStart st)))).
Proof.
  intros Hr Hl Ht res. subst res.
  destruct (@handleMouseMove_resizing vp p st e Hr) as (Hs & Hp & _ & Hin).
  assert (Hpos : snd (resizeGeometry p st e) = position st).
  { unfold resizeGeometry. rewrite Hl, Ht.
    destruct (includes (resizeDirection st) "right");
      destruct (includes (resizeDirection st) "bottom"); simpl;
      destruct (position st); reflexivity. }
  rewrite Hpos in Hp, Hin. rewrite Hs, Hp. clear Hs Hp Hpos.
  split; [reflexivity|]. split; [exact Hin|].
  unfold resizeGeometry. rewrite Hl, Ht.
  split; intros ->; simpl.
  - reflexivity.
  - destruct (includes (resizeDirection st) "right"); reflexivity.
Qed.

Lemma same_for_moves_refl p st : same_for_moves p st st.
Proof. unfold same_for_moves. repeat split; reflexivity. Qed.

Lemma same_for_moves_step vp p st' st e :
  same_for_moves p st' st ->
  fst (handleMouseMove vp p st' e) = fst (handleMouseMove vp p st e).
Proof.
  unfold same_for_moves.
  destruct st' as [pos' sz' dg' rs' dir' ds' rst'].
  destruct st as [pos sz dg rs dir ds rst]. simpl.
  intros (-> & -> & -> & -> & -> & Hidle & Hres).
  unfold handleMouseMove, resizeGeometry, dragPosition, setPosition, setSize.
  simpl. destruct rs.
  - destruct (Hres eq_refl) as [Hx Hy].
    destruct (includes dir "left") eqn:El;
      destruct (includes dir "top") eqn:Et;
      destruct (includes dir "right");
      destruct (includes dir "bottom");
      destruct (dg && negb (isMaximized p)); simpl;
      try rewrite (Hx eq_refl); try rewrite (Hy eq_refl); reflexivity.
  - destruct (Hidle eq_refl) as [-> Hpos].
    destruct (dg && negb (isMaximized p)); simpl; [reflexivity|].
    rewrite (Hpos eq_refl). reflexivity.
Qed.

Lemma same_for_moves_after vp p st e :
  same_for_moves p (fst (handleMouseMove vp p st e)) st.
Proof.
  unfold same_for_moves, handleMouseMove.
  destruct (isResizing st) eqn:Er;
    destruct (isDragging st && negb (isMaximized p)) eqn:Ed;
    try (destruct (resizeGeometry p st e) as [sz pos] eqn:Eg); simpl;
    repeat split; try reflexivity; try congruence; try discriminate.
  all: intros Hside; apply (f_equal snd) in Eg; simpl in Eg; subst pos;
    unfold resizeGeometry; rewrite Hside;
    destruct (includes (resizeDirection st) "left");
    destruct (includes (resizeDirection st) "top");
    destruct (includes (resizeDirection st) "right");
    destruct (includes (resizeDirection st) "bottom");
    try discriminate; reflexivity.
Qed.

(** The cells of a window after a sequence of pointer moves are those
    that the last move alone gives: a drag or a resize is computed from
    the anchor of the pointer-down, not from the previous step. *)
Theorem moves_depend_on_last_event vp p st es e :
  window_after_moves vp p st (es ++ [e]) = fst (handleMouseMove vp p st e).
Proof.
  unfold window_after_moves.
  assert (G : forall st',
             same_for_moves p st' st ->
             fold_left (fun st0 e0 => fst (handleMouseMove vp p st0 e0))
                       (es ++ [e]) st'
             = fst (handleMouseMove vp p st e)).
  { induction es as [|e1 es IH]; intros st' Hs; simpl.
    - rewrite (same_for_moves_step vp e Hs). reflexivity.
    - apply IH. rewrite (same_for_moves_step vp e1 Hs).
      apply same_for_moves_after. }
  apply G, same_for_moves_refl.
Qed.

Lemma idle_moves vp p st es :
  isDragging st = false -> isResizing st = false ->
  Forall (fun res => res = (st, [])) (moves vp p st es).
Proof.
  intros Hd Hr. induction es as [|e es IH]; simpl; [constructor|].
  assert (E : handleMouseMove vp p st e = (st, [])).
  { unfold handleMouseMove. rewrite Hd, Hr. reflexivity. }
  rewrite E. constructor; [reflexivity|exact IH].
Qed.

(** A press on the header of an idle window that is maximized or not
    draggable starts no drag: no cell of the window changes, the only
    callback is one [onFocus] (the handler of the window element, reached
    by bubbling), and the pointer moves that follow change nothing and
    call nothing. *)
Theorem header_press_on_fixed_window_only_focuses vp p st e0 es :
  isDragging st = false -> isResizing st = false ->
  draggable p = false \/ isMaximized p = true ->
  header_onMouseDown p st e0 = (st, [onFocus (id p)]) /\
  Forall (fun res => res = (st, []))
         (moves vp p (fst (header_onMouseDown p st e0)) es).
Proof.
  intros Hd Hr Hfix.
  assert (E : header_onMouseDown p st e0 = (st, [onFocus (id p)])).
  { unfold header_onMouseDown, handleMouseDown, handleFocus.
    destruct Hfix as [->| ->]; [reflexivity|].
    rewrite orb_true_r. reflexivity. }
  rewrite E. split; [reflexivity|]. apply idle_moves; assumption.
Qed.

(** After the pointer is released the window keeps its position and size,
    and pointer moves change nothing and call nothing, whatever the window
    was doing. *)
Theorem pointer_up_ends_drag_and_resize vp p st es :
  position (handleMouseUp st) = position st /\
  size (handleMouseUp st) = size st /\
  Forall (fun res => res = (handleMouseUp st, []))
         (moves vp p (handleMouseUp st) es).
Proof.
  split; [reflexivity|]. split; [reflexivity|].
  apply idle_moves; reflexivity.
Qed.

(** A press on the header of a draggable window leaves it in place and
    asks for focus; a move that keeps the window inside the viewport then
    shifts it by exactly the pointer's travel since the press. *)
Theorem drag_follows_pointer vp p st e0 e :
  draggable p = true -> isMaximized p = false -> isResizing st = false ->
  let st0 := fst (handleMouseDown p st e0) in
  let cx := x (position st) + (clientX e - clientX e0) in
  let cy := y (position st) + (clientY e - clientY e0) in
  let pos := position (fst (handleMouseMove vp p st0 e)) in
  position st0 = position st /\
  size st0 = size st /\
  snd (handleMouseDown p st e0) = [onFocus (id p)] /\
  (0 <= cx <= innerWidth vp - width (size st) -> x pos == cx) /\
  (0 <= cy <= innerHeight vp - height (size st) -> y pos == cy).
Proof.
  intros Hdr Hmax Hres. cbv zeta.
  unfold handleMouseDown. rewrite Hdr, Hmax. simpl.
  unfold handleMouseMove. simpl. rewrite Hres, Hmax. simpl.
  repeat split; try reflexivity.
  - intros [Hlo Hhi].
    set (c := clientX e - (clientX e0 - x (position st))).
    set (h := innerWidth vp - width (size st)) in *.
    assert (Ec : c == x (position st) + (clientX e - clientX e0))
      by (subst c; ring).
    destruct (Q.max_spec 0 (Qmin c h)) as [[? E]|[? E]];
      destruct (Q.min_spec c h) as [[? F]|[? F]];
      rewrite E; try rewrite F; lra.
  - intros [Hlo Hhi].
    set (c := clientY e - (clientY e0 - y (position st))).
    set (h := innerHeight vp - height (size st)) in *.
    assert (Ec : c == y (position st) + (clientY e - clientY e0))
      by (subst c; ring).
    destruct (Q.max_spec 0 (Qmin c h)) as [[? E]|[? E]];
      destruct (Q.min_spec c h) as [[? F]|[? F]];
      rewrite E; try rewrite F; lra.
Qed.

End WindowMoves.

(** ** More on the manager *)

Section ManagerMore.

Variable Node : Type.
Implicit Types (s r : ManagerState Node) (w : WindowState Node).
Implicit Types (ws : list (WindowState Node)) (i : string).

Lemma same_id_same_window ws w w' :
  NoDup (map (@id Node) ws) -> In w ws -> In w' ws -> id w = id w' -> w = w'.
Proof.
  induction ws as [|a ws IH]; simpl; intros Hnd Hw Hw' E; [contradiction|].
  inversion Hnd as [|? ? Hhd Htl]; subst.
  destruct Hw as [->|Hw]; destruct Hw' as [->|Hw'].
  - reflexivity.
  - exfalso. apply Hhd. rewrite E. apply in_map, Hw'.
  - exfalso. apply Hhd. rewrite <- E. apply in_map, Hw.
  - apply IH; assumption.
Qed.

Lemma minimize_twice s i : minimizeWindow i (minimizeWindow i s) = s.
Proof.
  destruct s as [ws nz]. unfold minimizeWindow. simpl.
  f_equal; rewrite map_map; apply map_fixed; intros w _;
    destruct w as [wi ? ? ? ? ? mn mx ? ? ?]; simpl;
    destruct (String.eqb wi i); simpl; rewrite ?negb_involutive; reflexivity.
Qed.

Lemma maximize_twice s i : maximizeWindow i (maximizeWindow i s) = s.
Proof.
  destruct s as [ws nz]. unfold maximizeWindow. simpl.
  f_equal; rewrite map_map; apply map_fixed; intros w _;
    destruct w as [wi ? ? ? ? ? mn mx ? ? ?]; simpl;
    destruct (String.eqb wi i); simpl; rewrite ?negb_involutive; reflexivity.
Qed.

(** Pressing minimize twice, or maximize twice, gives back the state the
    manager had, in either order of the two buttons. *)
Theorem toggling_twice_restores_state s i j :
  minimizeWindow i (minimizeWindow i s) = s /\
  maximizeWindow i (maximizeWindow i s) = s /\
  minimizeWindow i (maximizeWindow j (minimizeWindow i (maximizeWindow j s))) = s.
Proof.
  split; [apply minimize_twice|]. split; [apply maximize_twice|].
  assert (Hcomm : forall s0, minimizeWindow i (maximizeWindow j s0)
                           = maximizeWindow j (minimizeWindow i s0)).
  { intros [ws nz]. unfold minimizeWindow, maximizeWindow. simpl.
    f_equal. rewrite !map_map. apply map_ext. intros w. reflexivity. }
  rewrite Hcomm, minimize_twice. apply maximize_twice.
Qed.

Lemma instance_render_visible vp ws m w :
  NoDup (map (@id Node) ws) -> In w ws -> isMinimized w = false ->
  instance (id w) (render vp ws m)
  = Some (match instance (id w) m with
          | Some st => st
          | None => ResizableWindow.mount (windowProps vp w)
          end).
Proof.
  unfold render, visible.
  induction ws as [|a ws IH]; simpl; intros Hnd Hin Hvis; [contradiction|].
  inversion Hnd as [|? ? Hhd Htl]; subst.
  destruct Hin as [->|Hin].
  - rewrite Hvis. simpl. rewrite String.eqb_refl. reflexivity.
  - destruct (isMinimized a); simpl; [apply IH; assumption|].
    destruct (String.eqb_spec (id a) (id w)) as [E|E].
    + exfalso. apply Hhd. rewrite E. apply in_map, Hin.
    + apply IH; assumption.
Qed.

(** Minimizing a window unmounts it, and restoring it mounts it again
    from the manager's record: it is drawn at the stored position and
    size (or over the whole viewport if it is stored as maximized), not at
    the geometry it had on screen before. *)
Theorem restore_draws_stored_geometry vp s m w :
  NoDup (ids s) -> In w (windows s) -> isMinimized w = false ->
  let s1 := minimizeWindow (id w) s in
  let m1 := render vp (windows s1) m in
  let s2 := minimizeWindow (id w) s1 in
  let m2 := render vp (windows s2) m1 in
  s2 = s /\
  instance (id w) m1 = None /\
  rendered vp w m2
  = Some (if isMaximized w
          then ResizableWindow.FullViewport (zIndex w + 1000)
          else ResizableWindow.Rect (position w) (size w) (zIndex w)).
Proof.
  intros Hnd Hin Hvis s1 m1 s2 m2.
  assert (E2 : s2 = s) by apply minimize_twice.
  assert (Hm1 : instance (id w) m1 = None).
  { subst m1 s1. apply instance_render_None. simpl.
    intros w' Hw' Hid. apply in_map_iff in Hw'.
    destruct Hw' as (w0 & <- & Hw0). simpl in Hid |- *.
    assert (w0 = w) by (eapply same_id_same_window; eassumption).
    subst w0. rewrite String.eqb_refl, Hvis. reflexivity. }
  split; [exact E2|]. split; [exact Hm1|].
  subst m2. rewrite E2. unfold rendered.
  rewrite (@instance_render_visible vp (windows s) m1 w Hnd Hin Hvis), Hm1.
  unfold ResizableWindow.windowStyle. simpl.
  destruct (isMaximized w); reflexivity.
Qed.

(** Every window is counted once: the visible windows (the number on the
    badge, and the keys that a render mounts) and the taskbar buttons
    together are all the windows; with pairwise different ids no window
    has both a taskbar button and a mounted instance. *)
Theorem surface_and_taskbar_split_the_windows vp ws m :
  (List.length (visible ws) + List.length (taskbar ws) = List.length ws)%nat /\
  map fst (render vp ws m) = map (@id Node) (visible ws) /\
  (NoDup (map (@id Node) ws) ->
   forall k, In k (taskbar ws) -> ~ In k (map fst (render vp ws m))).
Proof.
  assert (Hkeys : map fst (render vp ws m) = map (@id Node) (visible ws)).
  { unfold render. rewrite map_map. reflexivity. }
  split; [|split; [exact Hkeys|]].
  - unfold visible, taskbar. rewrite length_map. clear Hkeys.
    induction ws as [|a ws IH]; simpl; [reflexivity|].
    destruct (isMinimized a); simpl; lia.
  - intros Hnd k Hk Hm. rewrite Hkeys in Hm.
    unfold taskbar in Hk. apply in_map_iff in Hk.
    destruct Hk as (a & <- & Ha). apply filter_In in Ha.
    apply in_map_iff in Hm. destruct Hm as (b & E & Hb).
    unfold visible in Hb. apply filter_In in Hb.
    destruct Ha as [Ha Hamin], Hb as [Hb Hbvis].
    assert (b = a) by (eapply same_id_same_window; eassumption).
    subst b. rewrite Hamin in Hbvis. discriminate.
Qed.

Lemma close_after_touch (g : WindowState Node -> WindowState Node) ws i :
  (forall w, id (g w) = id w) ->
  (forall w, String.eqb (id w) i = false -> g w = w) ->
  filter (fun w => negb (String.eqb (id w) i)) (map g ws)
  = filter (fun w => negb (String.eqb (id w) i)) ws.
Proof.
  intros Hid Hfix. induction ws as [|w ws IH]; simpl; [reflexivity|].
  rewrite Hid. destruct (String.eqb (id w) i) eqn:E; simpl; [exact IH|].
  rewrite IH, (Hfix w E). reflexivity.
Qed.

(** Changes to one window compose as expected.  After two position
    updates of an id every window with that id is stored at the later
    position, after two size updates at the later size, and after one of
    each, in either order, at both new values; the windows with another
    id and the list of ids are as before.  As equations: the later of two
    updates of one kind is the only one that counts, a position update
    and a size update can be applied in either order, and closing a
    window after updating it is the same as closing it, which leaves no
    window with that id. *)
Theorem later_update_wins s i j p1 p2 sz1 sz2 :
  (forall w,
     In w (windows (updateWindowPosition i p2 (updateWindowPosition i p1 s))) ->
     id w = i -> position w = p2) /\
  (forall w,
     In w (windows (updateWindowSize i sz2 (updateWindowSize i sz1 s))) ->
     id w = i -> size w = sz2) /\
  (forall w,
     In w (windows (updateWindowPosition i p1 (updateWindowSize i sz1 s))) ->
     id w = i -> position w = p1 /\ size w = sz1) /\
  map (@id Node) (windows (updateWindowPosition i p1 (updateWindowSize i sz1 s)))
    = map (@id Node) (windows s) /\
  filter (fun w => negb (String.eqb (id w) i))
         (windows (updateWindowPosition i p1 (updateWindowSize i sz1 s)))
    = filter (fun w => negb (String.eqb (id w) i)) (windows s) /\
  updateWindowPosition i p2 (updateWindowPosition i p1 s)
    = updateWindowPosition i p2 s /\
  updateWindowSize i sz2 (updateWindowSize i sz1 s)
    = updateWindowSize i sz2 s /\
  updateWindowPosition i p1 (updateWindowSize j sz1 s)
    = updateWindowSize j sz1 (updateWindowPosition i p1 s) /\
  closeWindow i (updateWindowPosition i p1 (updateWindowSize i sz1 s))
    = closeWindow i s /\
  ~ In i (ids (closeWindow i s)).
Proof.
  destruct s as [ws nz].
  unfold updateWindowPosition, updateWindowSize, closeWindow, ids. simpl.
  split; [|split; [|split; [|split; [|split; [|split; [|split; [|split; [|split]]]]]]]].
  - intros w Hin Hid. rewrite map_map in Hin. apply in_map_iff in Hin.
    destruct Hin as (w0 & <- & _). simpl in *.
    rewrite Hid, String.eqb_refl. reflexivity.
  - intros w Hin Hid. rewrite map_map in Hin. apply in_map_iff in Hin.
    destruct Hin as (w0 & <- & _). simpl in *.
    rewrite Hid, String.eqb_refl. reflexivity.
  - intros w Hin Hid. rewrite map_map in Hin. apply in_map_iff in Hin.
    destruct Hin as (w0 & <- & _). simpl in *.
    rewrite Hid, String.eqb_refl. split; reflexivity.
  - rewrite !map_map. reflexivity.
  - rewrite map_map. apply close_after_touch.
    + intros w. reflexivity.
    + intros w E. simpl. rewrite E. destruct w; reflexivity.
  - f_equal. rewrite map_map. apply map_ext. intros w. simpl.
    destruct (String.eqb (id w) i); reflexivity.
  - f_equal. rewrite map_map. apply map_ext. intros w. simpl.
    destruct (String.eqb (id w) i); reflexivity.
  - f_equal. rewrite !map_map. apply map_ext. intros w. simpl. reflexivity.
  - f_equal. rewrite map_map. apply close_after_touch.
    + intros w. reflexivity.
    + intros w E. simpl. rewrite E. destruct w; reflexivity.
  - intros Hin. apply in_map_iff in Hin. destruct Hin as (w & Hid & Hw).
    apply filter_In in Hw. destruct Hw as [_ Hw].
    rewrite Hid, String.eqb_refl in Hw. discriminate.
Qed.

End ManagerMore.

Section ManagerSequences.

Variable Node : Type.
Implicit Types (s r : ManagerState Node) (w : WindowState Node).
Implicit Types (ws : list (WindowState Node)) (i : string).

Lemma press_new_window_prefix (c : Node) gens : forall s,
  exists rest,
    windows (press_new_window c gens s) = windows s ++ rest /\
    List.length rest = List.length gens /\
    nextZIndex (press_new_window c gens s)
    = nextZIndex s + Z.of_nat (List.length gens).
Proof.
  induction gens as [|g gens IH]; intros s.
  - exists []. simpl. rewrite app_nil_r. repeat split. lia.
  - destruct (IH (snd (createWindow s g "New Window" c (no_options Node) s)))
      as (rest & Hw & Hl & Hz).
    exists (newWindow s g "New Window" c (no_options Node) :: rest).
    cbn [press_new_window]. rewrite Hw, Hz.
    cbn [createWindow snd windows nextZIndex List.length].
    rewrite <- app_assoc. repeat split; [simpl; lia|lia].
Qed.

(** The toolbar's [New Window] button pressed once per generated id: the
    windows that were there stay in front of the list, and the window of
    press [k] comes [k] places after them, with the generated id, the
    position [(100 + 30 n, 100 + 30 n)] for [n] the number of windows
    before it, the size 600 by 400, neither minimized nor maximized, and
    the counter's value at that press as [zIndex]; the counter advances by
    the number of presses. *)
Theorem new_windows_cascade (c : Node) gens s k gen :
  nth_error gens k = Some gen ->
  let s' := press_new_window c gens s in
  let n := (List.length (windows s) + k)%nat in
  firstn (List.length (windows s)) (windows s') = windows s /\
  nextZIndex s' = nextZIndex s + Z.of_nat (List.length gens) /\
  exists w,
    nth_error (windows s') n = Some w /\
    id w = gen /\
    title w = "New Window"%string /\
    (x (position w) == 100 + 30 * inject_Z (Z.of_nat n))%Q /\
    (y (position w) == 100 + 30 * inject_Z (Z.of_nat n))%Q /\
    size w = {| width := 600; height := 400 |} /\
    isMinimized w = false /\ isMaximized w = false /\
    zIndex w = nextZIndex s + Z.of_nat k.
Proof.
  intros Hk s' n. subst s' n.
  destruct (press_new_window_prefix c gens s) as (rest & Hw & Hl & Hz).
  split; [|split; [exact Hz|]].
  { rewrite Hw, firstn_app, Nat.sub_diag, firstn_all. simpl.
    apply app_nil_r. }
  clear rest Hw Hl Hz. revert s k Hk.
  induction gens as [|g gens IH]; intros s k Hk.
  - destruct k; discriminate.
  - destruct k; cbn [nth_error] in Hk; cbn [press_new_window].
    + injection Hk as ->.
      destruct (press_new_window_prefix c gens
                  (snd (createWindow s gen "New Window" c (no_options Node) s)))
        as (rest & Hw & _ & _).
      exists (newWindow s gen "New Window" c (no_options Node)).
      rewrite Hw. cbn [createWindow snd windows].
      rewrite Nat.add_0_r, <- app_assoc.
      rewrite nth_error_app2 by lia. rewrite Nat.sub_diag.
      split; [reflexivity|].
      unfold newWindow, spread. simpl.
      repeat split; try reflexivity; try lia; ring.
    + destruct (IH (snd (createWindow s g "New Window" c (no_options Node) s))
                  k Hk) as (w & Hn & Hid & Ht & Hx & Hy & Hsz & Hmn & Hmx & Hzi).
      cbn [createWindow snd windows nextZIndex] in Hn, Hx, Hy, Hzi.
      rewrite length_app in Hn, Hx, Hy. cbn [List.length] in Hn, Hx, Hy.
      replace (List.length (windows s) + 1 + k)%nat
        with (List.length (windows s) + S k)%nat in Hn, Hx, Hy by lia.
      exists w. repeat split; try assumption. lia.
Qed.

Lemma raised_zIndex_positive s t :
  raised s t ->
  1 <= nextZIndex s /\ forall p, In p (stacking s) -> 1 <= snd p.
Proof.
  induction 1 as [ | s t gen title0 component0 options _ IH Hfresh Hid Hz
                   | s t i _ IH | s t i _ IH | s t i _ IH | s t i _ IH
                   | s t i _ IH | s t i p _ IH | s t i sz _ IH
                   | s t vp _ IH | s t vp _ IH | s t vp _ IH ];
    try destruct IH as [Hn Hp].
  - split; [simpl; lia|intros p []].
  - rewrite stacking_create by assumption. simpl. split; [lia|].
    intros p Hin. apply in_app_or in Hin. destruct Hin as [Hin|[<-|[]]].
    + apply Hp, Hin.
    + exact Hn.
  - rewrite stacking_focus. simpl. split; [lia|].
    intros p Hin. apply in_map_iff in Hin. destruct Hin as (q & <- & Hq).
    simpl. destruct (String.eqb (fst q) i); [exact Hn|apply Hp, Hq].
  - rewrite !stacking_focus, raise_pairs_twice. simpl. split; [lia|].
    intros p Hin. apply in_map_iff in Hin. destruct Hin as (q & <- & Hq).
    simpl. destruct (String.eqb (fst q) i); [exact Hn|apply Hp, Hq].
  - rewrite stacking_close. simpl. split; [exact Hn|].
    intros p Hin. apply Hp. eapply close_pairs_incl, Hin.
  - rewrite stacking_minimize. split; assumption.
  - rewrite stacking_maximize. split; assumption.
  - rewrite stacking_move. split; assumption.
  - rewrite stacking_resize. split; assumption.
  - rewrite stacking_cascade. split; assumption.
  - rewrite stacking_tile. split; assumption.
  - rewrite stacking_stack. simpl. split; [exact Hn|].
    intros p Hin. unfold stack_pairs, mapi in Hin.
    apply numbered_bound in Hin. lia.
Qed.

(** Every state that the manager reaches by its operations, one per
    event, has pairwise different ids, every [zIndex] between 1 and the
    counter (the counter excluded), and fewer windows than the counter's
    value: a value handed out is never handed out again, also after
    windows were closed. *)
Theorem reached_state_is_well_formed s t :
  raised s t ->
  NoDup (ids s) /\
  (forall w, In w (windows s) -> 1 <= zIndex w < nextZIndex s) /\
  Z.of_nat (List.length (windows s)) < nextZIndex s.
Proof.
  intros Hr.
  destruct (raised_stack_inv Hr) as (Hid & _ & Hlt & Hlen & _).
  destruct (raised_zIndex_positive Hr) as [_ Hpos].
  split; [|split].
  - unfold stacking in Hid. rewrite map_map in Hid. exact Hid.
  - intros w Hw.
    assert (Hin : In (id w, zIndex w) (stacking s))
      by (unfold stacking; apply (in_map (fun w => (id w, zIndex w))), Hw).
    split; [apply (Hpos _ Hin)|apply (Hlt _ Hin)].
  - unfold stacking in Hlen. rewrite length_map in Hlen. exact Hlen.
Qed.

End ManagerSequences.

Section ManagerLayouts.

Variable Node : Type.
Variable placeholder : PartialWindowState Node -> Node.
Implicit Types (s r : ManagerState Node) (w : WindowState Node).
Implicit Types (ws : list (WindowState Node)) (i : string).

(** When the timer of [applyLayoutPreset] fires, the windows that are in
    the list at that moment stay, and one window per entry is appended in
    the order of the preset.  The window of entry [k] has the entry's
    title (["Window k+1"] if the entry has no title), position and size
    (the cascade position and 600 by 400 if the entry has none), and, if
    the entry sets none, the generated id and the counter of the render in
    which the preset was chosen: the same [zIndex] for every entry.  The
    counter advances by the number of entries. *)
Theorem preset_appends_one_window_per_entry r gen preset s k c :
  nth_error (preset_windows preset) k = Some c ->
  let s' := applyLayoutPreset_timeout placeholder r gen preset s in
  List.length (windows s')
    = (List.length (windows s) + List.length (preset_windows preset))%nat /\
  firstn (List.length (windows s)) (windows s') = windows s /\
  nextZIndex s' = nextZIndex s + Z.of_nat (List.length (preset_windows preset)) /\
  exists w,
    nth_error (windows s') (List.length (windows s) + k) = Some w /\
    id w = or_default (o_id c) (gen k) /\
    title w = or_default (o_title c) ("Window " ++ Number_toString (k + 1))%string /\
    position w
      = or_default (o_position c)
          {| x := 100 + Q_of_nat (List.length (windows r)) * 30;
             y := 100 + Q_of_nat (List.length (windows r)) * 30 |} /\
    size w = or_default (o_size c) {| width := 600; height := 400 |} /\
    zIndex w = or_default (o_zIndex c) (nextZIndex r) /\
    component w = or_default (o_component c) (placeholder c).
Proof.
  intros Hk s'. subst s'. unfold applyLayoutPreset_timeout.
  destruct (forEach_createWindow_spec placeholder r gen (preset_windows preset) 0 s)
    as [Hw Hz].
  rewrite Hw, Hz.
  split; [rewrite length_app, mapi_from_length; reflexivity|].
  split; [rewrite firstn_app, Nat.sub_diag, firstn_all; simpl; apply app_nil_r|].
  split; [reflexivity|].
  exists (preset_window placeholder r gen c k).
  split.
  - rewrite nth_error_app2 by lia.
    replace (List.length (windows s) + k - List.length (windows s))%nat
      with k by lia.
    apply (mapi_from_nth (preset_window placeholder r gen) _ 0 _ Hk).
  - unfold preset_window, newWindow, spread, Q_of_nat. simpl.
    destruct (o_title c) as [[|a t]|], (o_position c), (o_size c); simpl;
      repeat split; reflexivity.
Qed.

End ManagerLayouts.

Section ArrangeMore.

Variable Node : Type.
Implicit Types (s r : ManagerState Node) (w : WindowState Node).
Implicit Types (ws : list (WindowState Node)) (i : string).

Lemma mapi_from_twice (A : Type) (f : A -> nat -> A) (l : list A) :
  (forall a k, f (f a k) k = f a k) ->
  forall k, mapi_from k f (mapi_from k f l) = mapi_from k f l.
Proof.
  intros Hf. induction l as [|a l IH]; intros k; simpl; [reflexivity|].
  rewrite Hf. f_equal. apply IH.
Qed.

Lemma findIndex_from_same_ids (f : WindowState Node -> WindowState Node) i ws :
  (forall w, id (f w) = id w) ->
  forall k,
    findIndex_from k (fun w' => String.eqb (id w') i) (map f ws)
    = findIndex_from k (fun w' => String.eqb (id w') i) ws.
Proof.
  intros Hf. induction ws as [|a ws IH]; intros k; simpl; [reflexivity|].
  rewrite Hf. destruct (String.eqb (id a) i); [reflexivity|apply IH].
Qed.

Lemma tileWindow_id vp vis w : id (tileWindow vp vis w) = id w.
Proof. unfold tileWindow. destruct (isMinimized w); reflexivity. Qed.

Lemma tileWindow_twice vp vis w :
  tileWindow vp (map (tileWindow vp vis) vis) (tileWindow vp vis w)
  = tileWindow vp vis w.
Proof.
  unfold tileWindow at 1 3. rewrite length_map.
  destruct (isMinimized w) eqn:E.
  - rewrite E. unfold tileWindow. rewrite E. reflexivity.
  - simpl. unfold findIndex.
    rewrite (@findIndex_from_same_ids (tileWindow vp vis) (id w) vis
               (tileWindow_id vp vis) 0).
    unfold tileWindow at 1. rewrite E. reflexivity.
Qed.

(** Arranging again in the same mode, with nothing in between, changes
    nothing: the arrangement is computed from the places in the list and
    the viewport, not from the geometry the windows have. *)
Theorem arranging_twice_is_arranging_once vp mode s :
  arrangeWindows (arrangeWindows s vp mode s) vp mode (arrangeWindows s vp mode s)
  = arrangeWindows s vp mode s.
Proof.
  destruct mode; unfold arrangeWindows; cbn [windows nextZIndex]; f_equal.
  - unfold mapi. apply mapi_from_twice. intros a k. reflexivity.
  - unfold mapi. rewrite !mapi_from_map, visible_tile, map_map.
    apply map_ext. intros w. apply tileWindow_twice.
  - unfold mapi. apply mapi_from_twice. intros a k. reflexivity.
Qed.

(** After an arrangement in any mode no window on the surface is
    maximized, and after [cascade] or [stack] no window at all. *)
Theorem arrangement_clears_maximized r vp mode s :
  forallb (fun w => isMinimized w || negb (isMaximized w))
          (windows (arrangeWindows r vp mode s)) = true /\
  (mode <> tile ->
   forallb (fun w => negb (isMaximized w))
           (windows (arrangeWindows r vp mode s)) = true).
Proof.
  assert (Hall : forall (P : WindowState Node -> bool)
                        (f : WindowState Node -> nat -> WindowState Node) l k,
             (forall a j, P (f a j) = true) ->
             forallb P (mapi_from k f l) = true).
  { intros P f l. induction l as [|a l IH]; intros k Hf; simpl; [reflexivity|].
    rewrite Hf. apply IH, Hf. }
  split.
  - destruct mode; simpl; unfold mapi; apply Hall; intros a j; simpl.
    + apply orb_true_r.
    + unfold tileWindow. destruct (isMinimized a) eqn:E; simpl.
      * rewrite E. reflexivity.
      * apply orb_true_r.
    + apply orb_true_r.
  - intros Hm. destruct mode; [|contradiction|]; simpl; unfold mapi;
      apply Hall; reflexivity.
Qed.

End ArrangeMore.

Section WindowToManager.

Variable Node : Type.
Implicit Types (s r : ManagerState Node) (w : WindowState Node).

Lemma in_moved (ws : list (WindowState Node)) i p w :
  In w (map (fun w0 => set_position w0 (if String.eqb (id w0) i then p
                                        else position w0)) ws) ->
  id w = i -> position w = p.
Proof.
  intros Hin Hid. apply in_map_iff in Hin. destruct Hin as (w0 & <- & _).
  simpl in *. rewrite Hid, String.eqb_refl. reflexivity.
Qed.

(** After the manager has handled the callbacks of a pointer move, the
    window of that id is stored at the position the leaf window now has
    (when the move called anything) and, during a resize, at its size;
    windows with another id, the number of windows and the counter are as
    before. *)
Theorem moved_window_is_stored vp p st e r s :
  let res := ResizableWindow.handleMouseMove vp p st e in
  let s' := deliver_all r (snd res) s in
  nextZIndex s' = nextZIndex s /\
  List.length (windows s') = List.length (windows s) /\
  filter (fun w => negb (String.eqb (id w) (ResizableWindow.id p))) (windows s')
  = filter (fun w => negb (String.eqb (id w) (ResizableWindow.id p))) (windows s) /\
  (forall w,
     In w (windows s') -> id w = ResizableWindow.id p ->
     (snd res <> [] -> position w = ResizableWindow.position (fst res)) /\
     (ResizableWindow.isResizing st = true ->
        size w = ResizableWindow.size (fst res))).
Proof.
  cbv zeta. unfold ResizableWindow.handleMouseMove, deliver_all.
  destruct (ResizableWindow.isResizing st) eqn:Er;
    destruct (ResizableWindow.isDragging st
              && negb (ResizableWindow.isMaximized p)) eqn:Ed;
    try (destruct (ResizableWindow.resizeGeometry p st e) as [sz pos]);
    cbn [fst snd fold_left app deliver updateWindowPosition updateWindowSize
         windows nextZIndex ResizableWindow.position ResizableWindow.size
         ResizableWindow.setPosition ResizableWindow.setSize];
    (split; [reflexivity|]);
    (split; [rewrite ?length_map; reflexivity|]);
    (split; [rewrite ?map_map;
             try (apply close_after_touch;
                  [intros w; reflexivity
                  |intros w E; simpl; rewrite ?E; destruct w; reflexivity]);
             try reflexivity|]);
    intros w Hin Hid.
  - rewrite !map_map in Hin. apply in_map_iff in Hin.
    destruct Hin as (w0 & <- & _). simpl in *.
    rewrite Hid, String.eqb_refl. split; reflexivity.
  - rewrite !map_map in Hin. apply in_map_iff in Hin.
    destruct Hin as (w0 & <- & _). simpl in *.
    rewrite Hid, String.eqb_refl. split; reflexivity.
  - split; [|discriminate]. intros _.
    apply (@in_moved (windows s) (ResizableWindow.id p) _ w Hin Hid).
  - split; [|discriminate]. intros H. contradiction H. reflexivity.
Qed.

End WindowToManager.

(** ** The panels of the advanced workspace *)

Module WorkspaceFacts.

Import Workspace.

Section Panels.

Variable Node : Type.
Implicit Types (s r : WorkspaceState Node) (panel : WorkspacePanel Node).
Implicit Types (u : PartialWorkspacePanel Node) (i : string).

Lemma spread_no_updates panel : spread panel (no_updates Node) = panel.
Proof. destruct panel; reflexivity. Qed.

Lemma spread_merge panel u1 u2 :
  spread (spread panel u1) u2 = spread panel (merge u1 u2).
Proof.
  destruct panel, u1 as [a1 a2 a3 a4 a5 a6 a7 a8 a9 a10],
           u2 as [b1 b2 b3 b4 b5 b6 b7 b8 b9 b10].
  unfold spread, merge; simpl.
  destruct b1, b2, b3, b4, b5, b6, b7, b8, b9, b10; reflexivity.
Qed.


(** Two updates of the same panel that leave its id alone are one update
    with the later values laid over the earlier ones; an update without
    values changes nothing; and removing a panel after such an update is
    the same as removing it. *)
Theorem panel_updates_compose s i u1 u2 :
  o_id u1 = None ->
  updatePanel i u2 (updatePanel i u1 s) = updatePanel i (merge u1 u2) s /\
  updatePanel i (no_updates Node) s = s /\
  removePanel i (updatePanel i u1 s) = removePanel i s.
Proof.
  intros Hid. destruct s as [ps th sv].
  unfold updatePanel, removePanel, setPanels. simpl.
  split; [|split]; f_equal.
  - rewrite map_map. apply map_ext. intros panel.
    destruct (String.eqb (id panel) i) eqn:E; simpl.
    + rewrite Hid. simpl. rewrite E. apply spread_merge.
    + rewrite E. reflexivity.
  - rewrite <- (map_id ps) at 2. apply map_ext. intros panel.
    destruct (String.eqb (id panel) i); [apply spread_no_updates|reflexivity].
  - induction ps as [|panel ps IH]; simpl; [reflexivity|].
    destruct (String.eqb (id panel) i) eqn:E; simpl.
    + rewrite Hid. simpl. rewrite E. simpl. exact IH.
    + rewrite E. simpl. f_equal. exact IH.
Qed.

(** A layout saved under a non-empty name is appended to the saved
    layouts and holds the panels and the theme of the render in which it
    was saved; loading it later, whatever the panels are by then, puts
    these panels and this theme back and leaves the saved layouts alone.
    A cancelled or empty prompt saves nothing. *)
Theorem saved_layout_loads_back r s gen c layoutName :
  let s1 := saveLayout r (Some (String c layoutName)) gen s in
  (exists layout,
     savedLayouts s1 = savedLayouts s ++ [layout] /\
     layout_name layout = String c layoutName /\
     layout_id layout = gen /\
     forall s2,
       panels (loadLayout layout s2) = panels r /\
       currentTheme (loadLayout layout s2) = currentTheme r /\
       savedLayouts (loadLayout layout s2) = savedLayouts s2) /\
  panels s1 = panels s /\
  saveLayout r None gen s = s /\
  saveLayout r (Some ""%string) gen s = s.
Proof.
  cbv zeta. unfold saveLayout. repeat split.
  eexists. split; [reflexivity|]. repeat split.
  simpl. rewrite <- (map_id (panels r)) at 2.
  apply map_ext. intros panel. apply spread_no_updates.
Qed.

(** The Development layout, when nothing else happens between its
    timers and the three generated ids differ: the panels that were there
    are gone and three panels are left, the editor at the cascade
    position of the number of panels there were when the button was
    pressed, the terminal at (50,350) with 600 by 250 and the preview at
    (670,50) with 400 by 500. *)
Theorem development_layout_panels r s g1 g2 g3 c1 c2 c3 props0 :
  g1 <> g2 -> g1 <> g3 -> g2 <> g3 ->
  map (fun panel => (id panel, title panel, type panel, position panel,
                     size panel, visible panel))
      (panels (createDevelopmentLayout r g1 g2 g3 c1 c2 c3 props0 s))
  = [ (g1, "Code Editor"%string, editor,
       {| x := 50 + Q_of_nat (List.length (panels r)) * 30;
          y := 50 + Q_of_nat (List.length (panels r)) * 30 |},
       {| width := 400; height := 300 |}, true);
      (g2, "Terminal"%string, terminal, {| x := 50; y := 350 |},
       {| width := 600; height := 250 |}, true);
      (g3, "Preview"%string, browser, {| x := 670; y := 50 |},
       {| width := 400; height := 500 |}, true) ].
Proof.
  intros H12 H13 H23.
  apply String.eqb_neq in H12, H13, H23.
  unfold createDevelopmentLayout, createPanel, updatePanel, setPanels. simpl.
  rewrite ?String.eqb_refl, ?H12; simpl.
  rewrite ?String.eqb_refl, ?H13, ?H23; simpl.
  reflexivity.
Qed.

End Panels.

End WorkspaceFacts.

(** ** The panes and sessions of the terminal *)

Module TerminalFacts.

Import MultiTerminal.

Local Open Scope Q_scope.

Lemma total_size_same (f : TerminalPane -> TerminalPane) panes :
  (forall pane, size (f pane) = size pane) ->
  total_size (map f panes) == total_size panes.
Proof.
  intros Hf. induction panes as [|pane panes IH]; simpl; [reflexivity|].
  rewrite Hf, IH. reflexivity.
Qed.

Lemma total_size_split paneId o now1 now2 today panes :
  total_size (splitPane paneId o now1 now2 today panes)
  == total_size panes / 2 + 50.
Proof.
  unfold splitPane. induction panes as [|pane panes IH]; simpl.
  - field.
  - rewrite IH. field.
Qed.

(** The pane sizes add up to 100 per cent at every state that
    [createSession], [closeSession], [switchSession] and [splitPane]
    reach from the initial pane, and there is always at least one pane:
    a split halves every pane and adds one of 50. *)
Theorem pane_sizes_add_up_to_100 panes :
  reached panes -> total_size panes == 100 /\ panes <> [].
Proof.
  induction 1 as [now
                 | paneId sessionId title0 now today panes _ [IH Hne]
                 | paneId sessionId panes _ [IH Hne]
                 | paneId sessionId panes _ [IH Hne]
                 | paneId o now1 now2 today panes _ [IH Hne]].
  - split; [reflexivity|discriminate].
  - simpl. split.
    + rewrite total_size_same; [exact IH|].
      intros pane. destruct (String.eqb (id pane) paneId); reflexivity.
    + destruct panes; [contradiction|discriminate].
  - split.
    + unfold closeSession. rewrite total_size_same; [exact IH|].
      intros pane. destruct (String.eqb (id pane) paneId); reflexivity.
    + destruct panes; [contradiction|discriminate].
  - split.
    + unfold switchSession. rewrite total_size_same; [exact IH|].
      intros pane. reflexivity.
    + destruct panes; [contradiction|discriminate].
  - split.
    + rewrite total_size_split, IH. reflexivity.
    + unfold splitPane. intros E. apply app_eq_nil in E.
      destruct E as [_ E]. discriminate.
Qed.




End TerminalFacts.

(** ** More instances *)

Lemma resize_step_clamps_witness :
  (height (ResizableWindow.minSize props_a)
   <= height (ResizableWindow.size (fst top_resize_step)))%Q /\
  (height (ResizableWindow.size (fst top_resize_step))
   <= height (ResizableWindow.maxSize props_a))%Q /\
  width (ResizableWindow.size (fst top_resize_step))
  = ResizableWindow.start_width (ResizableWindow.resizeStart top_resize_started).
Proof.
  destruct (@WindowMoves.resize_step_clamps_handle_axes viewport_1024x768 props_a
              top_resize_started
              {| ResizableWindow.clientX := 400; ResizableWindow.clientY := 112 |}
              eq_refl) as (_ & Hw & Hh & _ & _).
  destruct (Hh eq_refl) as [Hlo Hhi].
  split; [exact Hlo|]. split; [apply Hhi; vm_compute; discriminate|].
  apply Hw. reflexivity.
Defined.

Lemma resize_from_corner_witness :
  ResizableWindow.position
    (fst (ResizableWindow.handleMouseMove viewport_1024x768 props_a
            corner_resize_started
            {| ResizableWindow.clientX := 760; ResizableWindow.clientY := 520 |}))
  = ResizableWindow.position corner_resize_started.
Proof.
  destruct (@WindowMoves.resize_from_right_or_bottom_keeps_corner
              viewport_1024x768 props_a corner_resize_started
              {| ResizableWindow.clientX := 760; ResizableWindow.clientY := 520 |}
              eq_refl eq_refl eq_refl) as (Hp & _).
  exact Hp.
Defined.

Lemma header_press_on_fixed_window_witness :
  ResizableWindow.header_onMouseDown props_a_maximized
    (ResizableWindow.mount props_a_maximized) press_150_110
  = (ResizableWindow.mount props_a_maximized, [ResizableWindow.onFocus "a"]) /\
  Forall (fun res => res = (ResizableWindow.mount props_a_maximized, []))
    (ResizableWindow.moves viewport_1024x768 props_a_maximized
       (ResizableWindow.mount props_a_maximized) [move_200_160]).
Proof.
  destruct (@WindowMoves.header_press_on_fixed_window_only_focuses
              viewport_1024x768 props_a_maximized
              (ResizableWindow.mount props_a_maximized) press_150_110
              [move_200_160] eq_refl eq_refl (or_intror eq_refl)) as [Hp Hm].
  split; [exact Hp|].
  rewrite Hp in Hm. exact Hm.
Defined.

Lemma drag_follows_pointer_witness :
  (x (ResizableWindow.position
        (fst (ResizableWindow.handleMouseMove viewport_1024x768 props_a
                a_drag_started move_200_160))) == 150)%Q /\
  (y (ResizableWindow.position
        (fst (ResizableWindow.handleMouseMove viewport_1024x768 props_a
                a_drag_started move_200_160))) == 150)%Q.
Proof.
  destruct (@WindowMoves.drag_follows_pointer viewport_1024x768 props_a
              (ResizableWindow.mount props_a) press_150_110 move_200_160
              eq_refl eq_refl eq_refl) as (_ & _ & _ & Hx & Hy).
  split.
  - rewrite Hx; [reflexivity|]. vm_compute. split; discriminate.
  - rewrite Hy; [reflexivity|]. vm_compute. split; discriminate.
Defined.

Lemma three_windows_distinct_ids : NoDup (ids three_windows).
Proof.
  simpl. constructor; [|constructor; [|constructor; [|constructor]]]; simpl.
  - intros [H|[H|[]]]; discriminate.
  - intros [H|[]]. discriminate.
  - tauto.
Defined.

Lemma restore_draws_stored_geometry_witness :
  rendered viewport_1024x768 window_b
    (render viewport_1024x768 (windows three_windows)
       (render viewport_1024x768 (windows b_minimized)
          (render viewport_1024x768 (windows three_windows) [])))
  = Some (ResizableWindow.Rect {| x := 130; y := 130 |}
            {| width := 600; height := 400 |} 2).
Proof.
  destruct (@restore_draws_stored_geometry unit viewport_1024x768 three_windows
              (render viewport_1024x768 (windows three_windows) []) window_b
              three_windows_distinct_ids
              (or_intror (or_introl eq_refl)) eq_refl) as (_ & _ & H).
  exact H.
Defined.

Lemma surface_and_taskbar_witness :
  ~ In "b"%string
       (map fst (render viewport_1024x768 (windows b_minimized) [])).
Proof.
  destruct (@surface_and_taskbar_split_the_windows unit viewport_1024x768
              (windows b_minimized) []) as (_ & _ & H).
  apply H.
  - simpl. constructor; [|constructor; [|constructor; [|constructor]]]; simpl.
    + intros [E|[E|[]]]; discriminate.
    + intros [E|[]]. discriminate.
    + tauto.
  - left. reflexivity.
Defined.

Lemma new_windows_cascade_witness :
  exists w,
    nth_error (windows (press_new_window tt ["a"; "b"; "c"]%string
                          (initial_state unit))) 2 = Some w /\
    id w = "c"%string /\ zIndex w = 3.
Proof.
  destruct (@new_windows_cascade unit tt ["a"; "b"; "c"]%string
              (initial_state unit) 2 "c" eq_refl)
    as (_ & _ & w & Hn & Hid & _ & _ & _ & _ & _ & _ & Hz).
  exists w. split; [exact Hn|]. split; [exact Hid|exact Hz].
Defined.

Lemma reached_state_witness :
  NoDup (ids a_focused) /\
  Z.of_nat (List.length (windows a_focused)) < nextZIndex a_focused.
Proof.
  destruct (reached_state_is_well_formed raised_a_focused) as (Hid & _ & Hlen).
  split; [exact Hid|exact Hlen].
Defined.

Lemma preset_appends_witness :
  exists w,
    nth_error (windows development_applied) 1 = Some w /\
    title w = "Terminal"%string /\ zIndex w = 1.
Proof.
  destruct (@preset_appends_one_window_per_entry unit (fun _ => tt)
              (initial_state unit) gen_w Development
              (applyLayoutPreset_clear (initial_state unit)) 1
              (preset_entry "Terminal" {| width := 600; height := 300 |}
                 {| x := 50; y := 670 |} terminal (Some tt))
              eq_refl)
    as (_ & _ & _ & w & Hn & _ & Ht & _ & _ & Hz & _).
  exists w. split; [exact Hn|]. split; [exact Ht|exact Hz].
Defined.

Lemma arrangement_clears_maximized_witness :
  forallb (fun w => negb (isMaximized w))
          (windows (arrangeWindows maximized_then_minimized viewport_1024x768
                      cascade maximized_then_minimized)) = true.
Proof.
  destruct (@arrangement_clears_maximized unit maximized_then_minimized
              viewport_1024x768 cascade maximized_then_minimized) as [_ H].
  apply H. discriminate.
Defined.

Lemma later_update_wins_witness :
  position
    (nth 1 (windows (updateWindowPosition "b" {| x := 7; y := 8 |}
                       (updateWindowPosition "b" {| x := 1; y := 2 |}
                          three_windows)))
         window_b)
  = {| x := 7; y := 8 |}.
Proof.
  destruct (@later_update_wins unit three_windows "b" "b"
              {| x := 1; y := 2 |} {| x := 7; y := 8 |}
              {| width := 1; height := 1 |} {| width := 2; height := 2 |})
    as (H & _).
  apply H.
  - right. left. reflexivity.
  - reflexivity.
Defined.

Lemma moved_window_is_stored_witness :
  position
    (nth 0 (windows (deliver_all one_window
                       (snd (ResizableWindow.handleMouseMove viewport_1024x768
                               props_a a_drag_started move_200_160))
                       one_window))
         window_b)
  = ResizableWindow.position
      (fst (ResizableWindow.handleMouseMove viewport_1024x768 props_a
              a_drag_started move_200_160)).
Proof.
  destruct (@moved_window_is_stored unit viewport_1024x768 props_a
              a_drag_started move_200_160 one_window one_window)
    as (_ & _ & _ & H).
  destruct (H (nth 0 (windows (deliver_all one_window
                       (snd (ResizableWindow.handleMouseMove viewport_1024x768
                               props_a a_drag_started move_200_160))
                       one_window))
                 window_b)) as [Hp _].
  - left. reflexivity.
  - reflexivity.
  - apply Hp. discriminate.
Defined.

Lemma panel_updates_compose_witness :
  Workspace.updatePanel "p1" lock_panel
    (Workspace.updatePanel "p1" move_to_50_350 one_panel)
  = Workspace.updatePanel "p1" (Workspace.merge move_to_50_350 lock_panel)
      one_panel.
Proof.
  destruct (@WorkspaceFacts.panel_updates_compose unit one_panel "p1"
              move_to_50_350 lock_panel eq_refl) as (H & _).
  exact H.
Defined.

Lemma development_layout_witness :
  map (fun panel => (Workspace.id panel, Workspace.position panel))
      (Workspace.panels
         (Workspace.createDevelopmentLayout one_panel "p2" "p3" "p4" tt tt tt tt
            one_panel))
  = [ ("p2"%string, {| x := 50 + Q_of_nat 1 * 30; y := 50 + Q_of_nat 1 * 30 |});
      ("p3"%string, {| x := 50; y := 350 |});
      ("p4"%string, {| x := 670; y := 50 |}) ].
Proof.
  assert (H := @WorkspaceFacts.development_layout_panels unit one_panel one_panel
                 "p2" "p3" "p4" tt tt tt tt
                 ltac:(discriminate) ltac:(discriminate) ltac:(discriminate)).
  apply (f_equal (map (fun t => (fst (fst (fst (fst (fst t)))),
                                 snd (fst (fst t)))))) in H.
  rewrite map_map in H. exact H.
Defined.

Lemma pane_sizes_witness :
  (MultiTerminal.total_size two_sessions == 100)%Q.
Proof.
  apply (@TerminalFacts.pane_sizes_add_up_to_100 two_sessions).
  apply MultiTerminal.reached_create, MultiTerminal.reached_split,
    MultiTerminal.reached_initial.
Defined.



(** ** A press on a header, from the window to the manager *)

Section HeaderPress.

Variable Node : Type.
Implicit Types (s r : ManagerState Node) (w : WindowState Node).

Lemma stack_inv_on_top s t i :
  stack_inv (stacking s) (nextZIndex s) t -> t = Some i ->
  on_top i s /\ NoDup (map (@zIndex Node) (windows s)).
Proof.
  intros (_ & Hz & _ & _ & Htop) E. split.
  - intros w w' Hw Hw' Hi Hi'.
    apply (Htop i E (id w, zIndex w) (id w', zIndex w')).
    + unfold stacking. apply (in_map (fun w => (id w, zIndex w))), Hw.
    + unfold stacking. apply (in_map (fun w => (id w, zIndex w))), Hw'.
    + exact Hi.
    + exact Hi'.
  - unfold stacking in Hz. rewrite map_map in Hz. exact Hz.
Qed.

(** A press on the header of a live window, handled by the manager in a
    state it has reached: the window is then strictly above every other
    window and the [zIndex] values are still pairwise different.  The
    press asks for focus twice when it starts a drag (the handler of the
    header and the handler of the window element both run), so the
    counter advances by two; on a window that is maximized or not
    draggable it asks once, and the counter advances by one. *)
Theorem header_press_raises_window p st e s t :
  raised s t ->
  has_id (ResizableWindow.id p) s = true ->
  let s' := deliver_all s (snd (ResizableWindow.header_onMouseDown p st e)) s in
  on_top (ResizableWindow.id p) s' /\
  NoDup (map (@zIndex Node) (windows s')) /\
  nextZIndex s'
  = nextZIndex s
    + (if negb (ResizableWindow.draggable p) || ResizableWindow.isMaximized p
       then 1 else 2).
Proof.
  intros Hr Hhas s'. subst s'.
  unfold ResizableWindow.header_onMouseDown, ResizableWindow.handleMouseDown,
    ResizableWindow.handleFocus, deliver_all.
  destruct (negb (ResizableWindow.draggable p) || ResizableWindow.isMaximized p);
    cbn [snd app fold_left deliver].
  - assert (R := raise_focus (ResizableWindow.id p) Hr). rewrite Hhas in R.
    destruct (@stack_inv_on_top _ _ _ (raised_stack_inv R) eq_refl) as [Ht Hn].
    split; [exact Ht|]. split; [exact Hn|reflexivity].
  - assert (R := raise_header (ResizableWindow.id p) Hr). rewrite Hhas in R.
    destruct (@stack_inv_on_top _ _ _ (raised_stack_inv R) eq_refl) as [Ht Hn].
    split; [exact Ht|]. split; [exact Hn|]. simpl. lia.
Qed.

End HeaderPress.

Lemma raised_two_windows : raised two_windows (Some "b"%string).
Proof.
  apply (@raise_create unit one_window (Some "a"%string) "b" "New Window" tt
           (no_options unit)); try reflexivity.
  - apply (@raise_create unit (initial_state unit) None "a" "New Window" tt
             (no_options unit)); try reflexivity.
    + apply raise_init.
    + simpl. tauto.
  - simpl. intros [H|[]]. discriminate.
Defined.

Lemma header_press_witness :
  on_top "a"
    (deliver_all two_windows
       (snd (ResizableWindow.header_onMouseDown props_a
               (ResizableWindow.mount props_a) press_150_110))
       two_windows) /\
  nextZIndex
    (deliver_all two_windows
       (snd (ResizableWindow.header_onMouseDown props_a
               (ResizableWindow.mount props_a) press_150_110))
       two_windows) = 5.
Proof.
  destruct (@header_press_raises_window unit props_a
              (ResizableWindow.mount props_a) press_150_110 two_windows
              (Some "b"%string) raised_two_windows eq_refl) as (Ht & _ & Hz).
  split; [exact Ht|exact Hz].
Defined.
